(** * hoiku-app: the authorization gateway, the session context and the
      permissioned data-access layer

    A shallow embedding of
      - [src/middleware.ts]   (route tables, [config.matcher],
                               [createRedirect], [getSession], [middleware]),
      - [src/lib/auth.tsx]    (the conversions, [handleAuthError], the
                               operations of the provider and its hooks),
      - [src/lib/supabase.ts] ([customStorage], [getCurrentUser]),
      - [src/lib/database.ts] ([getUserProfile], [updateUserProfile],
                               [getChildren], [saveGenerationHistory]),
      - the submit handlers of the login and registration forms and the
        logout handler of the header,
    followed by the properties of these functions.

    The Supabase client is the one collaborator that is not code of the
    repository.  It is represented by explicit replies (data, error, or a
    thrown exception), by the calls it makes back into the repository
    while it is awaited (cookie handlers, the session listener, the
    storage object) and, for the tables, by a small store whose [single]
    row selection answers [PGRST116] when no row matches, which is the
    answer the code tests for. *)

From Stdlib Require Import String Ascii List ZArith Bool Lia.
From stdpp Require Import base strings pretty gmap.
Import ListNotations.

Local Open Scope Z_scope.

(** ** JavaScript string and truthiness helpers *)

Module Js.

(** [s.startsWith(pre)] *)
Definition startsWith (s pre : string) : bool := String.prefix pre s.

(** [s.includes(sub)] *)
Fixpoint includes (s sub : string) : bool :=
  String.prefix sub s ||
  match s with
  | EmptyString => false
  | String _ rest => includes rest sub
  end.

(** A string is truthy unless it is empty. *)
Definition truthy (s : string) : bool := negb (String.eqb s "").

(** An optional string ([undefined]/[null] or a string) in a condition. *)
Definition truthy_opt (o : option string) : bool :=
  match o with
  | Some s => truthy s
  | None => false
  end.

(** A number in a condition: [0] and [undefined] are falsy. *)
Definition truthy_num (o : option Z) : bool :=
  match o with
  | Some n => negb (n =? 0)
  | None => false
  end.

(** [xs.join(sep)] *)
Definition join (sep : string) (xs : list string) : string :=
  String.concat sep xs.

(** What a call into the platform or into a client library does: it
    returns a value or it throws. *)
Inductive Outcome (A : Type) : Type :=
| Returns (a : A)
| Throws (message : string).
Arguments Returns {A} a.
Arguments Throws {A} message.

End Js.

Export Js.

(** ** The gateway: [src/middleware.ts] *)

Module Gateway.

(** *** URLs, requests, responses *)

Record URL : Type := mkURL {
  origin : string;
  pathname : string;
  searchParams : list (string * string)
}.

(** [new URL(url, base)] for an absolute-path reference such as
    ['/login']: the origin of the base, the given path, no query. *)
Definition new_URL (url : string) (base : URL) : URL :=
  {| origin := origin base; pathname := url; searchParams := [] |}.

(** [searchParams.set(name, value)]: the first entry of that name takes
    the value and the others are dropped; without one, it is appended. *)
Fixpoint searchParams_set (name value : string)
         (params : list (string * string)) : list (string * string) :=
  match params with
  | [] => [(name, value)]
  | (k, v) :: rest =>
      if String.eqb k name
      then (name, value) :: filter (fun kv => negb (String.eqb (fst kv) name)) rest
      else (k, v) :: searchParams_set name value rest
  end.

(** [searchParams.get(name)] *)
Fixpoint searchParams_get (name : string)
         (params : list (string * string)) : option string :=
  match params with
  | [] => None
  | (k, v) :: rest =>
      if String.eqb k name then Some v else searchParams_get name rest
  end.

Record NextRequest : Type := mkRequest {
  nextUrl : URL;
  req_cookies : gmap string string
}.

(** The attributes a cookie is written with, as the options of a cookie
    handler carry them: [maxAge] in seconds, [expires] as the instant it
    denotes, in milliseconds. *)
Record CookieOptions : Type := mkCookieOptions {
  maxAge : option Z;
  expires : option Z;
  path : option string;
  domain : option string;
  sameSite : option string;
  httpOnly : option bool;
  secure : option bool
}.

(** Writes on [response.cookies]: [set({ name, value, ...options })] and
    [delete(name)]. *)
Inductive CookieWrite : Type :=
| CookieSet (name value : string) (options : CookieOptions)
| CookieDelete (name : string).

Inductive ResponseKind : Type :=
| Next
| Redirect (location : URL).

Record NextResponse : Type := mkResponse {
  kind : ResponseKind;
  cookies : list CookieWrite
}.

(** [NextResponse.next()] and [NextResponse.redirect(url)] *)
Definition NextResponse_next : NextResponse :=
  {| kind := Next; cookies := [] |}.
Definition NextResponse_redirect (url : URL) : NextResponse :=
  {| kind := Redirect url; cookies := [] |}.

(** [response.cookies.delete(name)] *)
Definition cookies_delete (name : string) (r : NextResponse) : NextResponse :=
  {| kind := kind r; cookies := cookies r ++ [CookieDelete name] |}.

(** What the run of a function leaves behind besides its value. *)
Inductive Effect : Type :=
| ConsoleLog (message : string)
| ConsoleError (message : string)
| AuthGetSession
| AuthRefreshSession.

(** *** Route tables and route predicates *)

Definition protectedRoutes : list string :=
  ["/dashboard"; "/email"; "/diary"; "/records"]%string.

Definition publicRoutes : list string :=
  ["/"; "/login"; "/register"; "/auth"]%string.

Definition authRoutes : list string :=
  ["/login"; "/register"]%string.

Definition isProtectedRoute (pathname : string) : bool :=
  existsb (fun route => startsWith pathname route) protectedRoutes.

Definition isPublicRoute (pathname : string) : bool :=
  existsb (fun route =>
             if String.eqb route "/"
             then String.eqb pathname "/"
             else startsWith pathname route) publicRoutes.

Definition isAuthRoute (pathname : string) : bool :=
  existsb (fun route => startsWith pathname route) authRoutes.

(** The test at the head of [middleware]: static files and API routes. *)
Definition isStaticOrApi (pathname : string) : bool :=
  startsWith pathname "/_next/" ||
  startsWith pathname "/api/" ||
  includes pathname "." ||
  startsWith pathname "/favicon.ico".

(** The dot of a regular expression: any character but a line
    terminator. *)
Definition regexp_dot (c : ascii) : bool :=
  negb (Ascii.eqb c "010" || Ascii.eqb c "013").

(** The alternative [favicon.ico] of the pattern below, whose dot is not
    escaped: [favicon], any one character, [ico]. *)
Definition starts_favicon_ico (s : string) : bool :=
  startsWith s "favicon" &&
  match String.get 7 s with
  | Some c => regexp_dot c
  | None => false
  end &&
  String.eqb (String.substring 8 3 s) "ico".

(** [config.matcher]: the paths the framework runs [middleware] on, all
    but those that, after the leading slash, start with [api],
    [_next/static], [_next/image] or the alternative [favicon.ico], or
    contain a dot. *)
Definition matcher (pathname : string) : bool :=
  match pathname with
  | String "/" rest =>
      negb (startsWith rest "api" || startsWith rest "_next/static" ||
            startsWith rest "_next/image" || starts_favicon_ico rest ||
            includes rest ".")
  | _ => false
  end.

(** *** [createRedirect] *)

Definition createRedirect (url : string) (request : NextRequest)
           (destination : option string) : NextResponse :=
  let redirectUrl := new_URL url (nextUrl request) in
  let redirectUrl :=
    match destination with
    | Some d =>
        if truthy d && negb (String.eqb d "/")
        then {| origin := origin redirectUrl;
                pathname := pathname redirectUrl;
                searchParams := searchParams_set "redirect" d
                                  (searchParams redirectUrl) |}
        else redirectUrl
    | None => redirectUrl
    end in
  NextResponse_redirect redirectUrl.

(** *** [getSession] *)

Record User : Type := mkUser {
  user_id : string;
  user_email : string
}.

Record Session : Type := mkSession {
  access_token : string;
  refresh_token : string;
  expires_at : option Z;
  user : option User
}.

(** The cookie handlers given to [createServerClient]: [set] writes the
    cookie on the response with the options it is given, [remove] writes
    it with an empty value and the options it is given. *)
Inductive CookieCall : Type :=
| CallSet (name value : string) (options : CookieOptions)
| CallRemove (name : string) (options : CookieOptions).

Definition handle_cookie_call (c : CookieCall) : CookieWrite :=
  match c with
  | CallSet name value options => CookieSet name value options
  | CallRemove name options => CookieSet name "" options
  end.

(** The reply of [supabase.auth.getSession()] or
    [supabase.auth.refreshSession()]: [{ data: { session }, error }],
    and the calls the client made to the cookie handlers meanwhile. *)
Record AuthReply : Type := mkAuthReply {
  data_session : option Session;
  error : option string;
  cookie_calls : list CookieCall
}.

(** The server-side Supabase client, reading the request's cookies. *)
Record SupabaseAuth : Type := mkSupabaseAuth {
  auth_getSession : gmap string string -> Outcome AuthReply;
  auth_refreshSession : gmap string string -> Outcome AuthReply
}.

Record SessionResult : Type := mkSessionResult {
  session : option Session;
  response : NextResponse;
  needsCleanup : bool
}.

Definition with_cookie_calls (calls : list CookieCall)
           (r : NextResponse) : NextResponse :=
  {| kind := kind r; cookies := cookies r ++ map handle_cookie_call calls |}.

Definition expirationBuffer : Z := 5 * 60.

(** [session.expires_at && session.expires_at < (now + expirationBuffer)] *)
Definition expiresSoon (s : Session) (now : Z) : bool :=
  truthy_num (expires_at s) &&
  match expires_at s with
  | Some e => e <? now + expirationBuffer
  | None => false
  end.

(** The result when the [catch] of [getSession] is reached. *)
Definition getSession_caught (effects : list Effect)
  : SessionResult * list Effect :=
  ({| session := None; response := NextResponse_next; needsCleanup := true |},
   effects ++ [ConsoleError "Middleware: Unexpected error getting session:"]).

(** [getSession(request)], with [Date.now()] in milliseconds. *)
Definition getSession (supabase : SupabaseAuth) (date_now : Z)
           (request : NextRequest) : SessionResult * list Effect :=
  let response := NextResponse_next in
  match auth_getSession supabase (req_cookies request) with
  | Throws _ => getSession_caught [AuthGetSession]
  | Returns reply =>
      let response := with_cookie_calls (cookie_calls reply) response in
      match error reply with
      | Some _ =>
          ({| session := None; response := response; needsCleanup := true |},
           [AuthGetSession;
            ConsoleError "Middleware: Error getting session:"])
      | None =>
          match data_session reply with
          | None =>
              ({| session := None; response := response;
                  needsCleanup := false |},
               [AuthGetSession])
          | Some sess =>
              let now := date_now / 1000 in
              if expiresSoon sess now then
                let effects :=
                  [AuthGetSession;
                   ConsoleLog "Middleware: Session expires soon, attempting refresh";
                   AuthRefreshSession] in
                match auth_refreshSession supabase (req_cookies request) with
                | Throws _ => getSession_caught effects
                | Returns refreshData =>
                    let response :=
                      with_cookie_calls (cookie_calls refreshData) response in
                    match error refreshData, data_session refreshData with
                    | None, Some refreshed =>
                        ({| session := Some refreshed; response := response;
                            needsCleanup := false |},
                         effects ++
                         [ConsoleLog "Middleware: Session refreshed successfully"])
                    | _, _ =>
                        ({| session := None; response := response;
                            needsCleanup := true |},
                         effects ++
                         [ConsoleError "Middleware: Failed to refresh session:"])
                    end
                end
              else
                match user sess with
                | None =>
                    ({| session := None; response := response;
                        needsCleanup := true |},
                     [AuthGetSession;
                      ConsoleError "Middleware: Session exists but no user found"])
                | Some _ =>
                    ({| session := Some sess; response := response;
                        needsCleanup := false |},
                     [AuthGetSession])
                end
          end
      end
  end.

(** *** [middleware] *)

Section Middleware.

(** The awaited [getSession(request)]: the asynchronous call of the
    [try] block, which resolves to a result or rejects. *)
Variable validate : NextRequest -> Outcome (SessionResult * list Effect).

(** The body of the [try] block. *)
Definition middleware_try (request : NextRequest)
  : Outcome (NextResponse * list Effect) :=
  let pathname := pathname (nextUrl request) in
  match validate request with
  | Throws e => Throws e
  | Returns (result, effects) =>
      let isAuthenticated :=
        match session result with Some _ => true | None => false end in
      if needsCleanup result && negb isAuthenticated then
        if isProtectedRoute pathname then
          let cleanupResponse := createRedirect "/login" request (Some pathname) in
          let cleanupResponse := cookies_delete "sb-access-token" cleanupResponse in
          let cleanupResponse := cookies_delete "sb-refresh-token" cleanupResponse in
          Returns (cleanupResponse,
                   effects ++
                   [ConsoleLog ("Middleware: Cleaning up invalid session and redirecting from "
                                +:+ pathname +:+ " to /login")])
        else
          let cleanupResponse := NextResponse_next in
          let cleanupResponse := cookies_delete "sb-access-token" cleanupResponse in
          let cleanupResponse := cookies_delete "sb-refresh-token" cleanupResponse in
          Returns (cleanupResponse, effects)
      else if isProtectedRoute pathname then
        if negb isAuthenticated then
          Returns (createRedirect "/login" request (Some pathname),
                   effects ++
                   [ConsoleLog ("Middleware: Redirecting unauthenticated user from "
                                +:+ pathname +:+ " to /login")])
        else
          Returns (response result,
                   effects ++
                   [ConsoleLog ("Middleware: Allowing authenticated user access to "
                                +:+ pathname)])
      else if isAuthRoute pathname && isAuthenticated then
        Returns (createRedirect "/dashboard" request None,
                 effects ++
                 [ConsoleLog ("Middleware: Redirecting authenticated user from "
                              +:+ pathname +:+ " to /dashboard")])
      else if isPublicRoute pathname then
        Returns (NextResponse_next, effects)
      else
        Returns (NextResponse_next, effects)
  end.

(** The [catch] block. *)
Definition middleware_catch (request : NextRequest)
  : NextResponse * list Effect :=
  let pathname := pathname (nextUrl request) in
  let effects := [ConsoleError "Middleware: Unexpected error:"] in
  if isProtectedRoute pathname
  then (createRedirect "/login" request (Some pathname), effects)
  else (NextResponse_next, effects).

Definition middleware (request : NextRequest)
  : NextResponse * list Effect :=
  let pathname := pathname (nextUrl request) in
  if isStaticOrApi pathname then (NextResponse_next, [])
  else
    match middleware_try request with
    | Returns r => r
    | Throws _ => middleware_catch request
    end.

End Middleware.

(** The gateway as deployed: validation is [getSession]. *)
Definition gateway (supabase : SupabaseAuth) (date_now : Z)
           (request : NextRequest) : NextResponse * list Effect :=
  middleware (fun r => Returns (getSession supabase date_now r)) request.

(** A cookie written with these attributes is expired on arrival: a
    [maxAge] that is not positive, or, without [maxAge], an [expires]
    that is not in the future of the browser's clock. *)
Definition expired (browser_now : Z) (o : CookieOptions) : bool :=
  match maxAge o with
  | Some seconds => seconds <=? 0
  | None =>
      match expires o with
      | Some instant => instant <=? browser_now
      | None => false
      end
  end.

(** The browser's side of a response: each cookie write is applied to
    the jar the next request is sent with.  A cookie written expired
    leaves the jar, as does one deleted. *)
Definition apply_cookie_write (browser_now : Z) (jar : gmap string string)
           (w : CookieWrite) : gmap string string :=
  match w with
  | CookieSet name value options =>
      if expired browser_now options then delete name jar
      else <[name := value]> jar
  | CookieDelete name => delete name jar
  end.

Definition jar_after (browser_now : Z) (request : NextRequest)
           (r : NextResponse) : gmap string string :=
  fold_left (apply_cookie_write browser_now) (cookies r) (req_cookies request).

(** The anonymous case of validation: the client answers with neither a
    session nor an error. *)
Definition isNoSession (supabase : SupabaseAuth) (request : NextRequest)
  : bool :=
  match auth_getSession supabase (req_cookies request) with
  | Returns reply =>
      match error reply, data_session reply with
      | None, None => true
      | _, _ => false
      end
  | Throws _ => false
  end.

(** Both token cookies are deleted on the response. *)
Definition clearsTokens (r : NextResponse) : Prop :=
  In (CookieDelete "sb-access-token") (cookies r) /\
  In (CookieDelete "sb-refresh-token") (cookies r).

End Gateway.

(** ** The session context: [src/lib/auth.tsx] *)

Module AuthContext.

(** [src/types/auth.ts] *)
Inductive UserRole : Type := teacher | admin | supervisor.

Record AuthUser : Type := mkAuthUser {
  id : string;
  email : string;
  name : string;
  avatar_url : option string;
  assigned_class : option string;
  role : option UserRole;
  email_verified : bool;
  created_at : Z;
  updated_at : Z
}.

Record AuthSession : Type := mkAuthSession {
  user : AuthUser;
  access_token : string;
  refresh_token : option string;
  expires_at : Z;
  session_id : string
}.

Record AuthError : Type := mkAuthError {
  message : string;
  code : option string;
  field : option string
}.

Record AuthResponse (T : Type) : Type := mkAuthResponse {
  data : option T;
  error : option AuthError;
  success : bool
}.
Arguments mkAuthResponse {T} data error success.
Arguments data {T} a.
Arguments error {T} a.
Arguments success {T} a.

(** An [AuthError] of the Supabase client, or a plain [Error]: the
    message, and the [status] when the object has one. *)
Record ClientError : Type := mkClientError {
  err_message : string;
  err_status : option Z
}.

(** What an awaited call of the Supabase client does: it resolves to
    its reply, or it rejects with an error object. *)
Inductive Awaited (A : Type) : Type :=
| Resolves (reply : A)
| Rejects (thrown : ClientError).
Arguments Resolves {A} reply.
Arguments Rejects {A} thrown.

(** The provider state, the browser's cookie jar, and the console. *)
Record Context : Type := mkContext {
  ctx_user : option AuthUser;
  ctx_session : option AuthSession;
  loading : bool;
  window_defined : bool;
  document_cookie : gmap string string;
  console : list string
}.

Definition setUser (u : option AuthUser) (c : Context) : Context :=
  {| ctx_user := u; ctx_session := ctx_session c; loading := loading c;
     window_defined := window_defined c;
     document_cookie := document_cookie c; console := console c |}.

Definition setSession (s : option AuthSession) (c : Context) : Context :=
  {| ctx_user := ctx_user c; ctx_session := s; loading := loading c;
     window_defined := window_defined c;
     document_cookie := document_cookie c; console := console c |}.

Definition setLoading (b : bool) (c : Context) : Context :=
  {| ctx_user := ctx_user c; ctx_session := ctx_session c; loading := b;
     window_defined := window_defined c;
     document_cookie := document_cookie c; console := console c |}.

Definition console_error (line : string) (c : Context) : Context :=
  {| ctx_user := ctx_user c; ctx_session := ctx_session c;
     loading := loading c; window_defined := window_defined c;
     document_cookie := document_cookie c;
     console := console c ++ [line] |}.

(** [document.cookie = 'name=; path=/; expires=Thu, 01 Jan 1970 00:00:01 GMT']:
    a cookie written with a date in the past leaves the jar. *)
Definition expire_cookie (cookie : string) (c : Context) : Context :=
  {| ctx_user := ctx_user c; ctx_session := ctx_session c;
     loading := loading c; window_defined := window_defined c;
     document_cookie := delete cookie (document_cookie c);
     console := console c |}.

(** [handleAuthError]; its [console.error] line is written by the
    caller, see [signOut]. *)
Definition handleAuthError {T : Type} (error : ClientError)
  : AuthResponse T :=
  let message := err_message error in
  let code :=
    match err_status error with
    | Some status => pretty status
    | None => "unknown_error"%string
    end in
  let '(message, code) :=
    if includes message "Invalid login credentials"
    then ("Invalid email or password", "invalid_credentials")%string
    else if includes message "User already registered"
    then ("An account with this email already exists", "user_exists")%string
    else if includes message "Password should be"
    then ("Password must be at least 6 characters long", "weak_password")%string
    else if includes message "Email not confirmed"
    then ("Please check your email and click the confirmation link",
          "email_not_confirmed")%string
    else (message, code) in
  {| data := None;
     error := Some {| message := message; code := Some code; field := None |};
     success := false |}.



End AuthContext.

(** ** The data-access layer: [src/lib/database.ts] *)

Module Database.

(** *** Rows ([src/types/database.ts]); dates are ISO strings *)

Record User : Type := mkUser {
  id : string;
  email : string;
  name : string;
  assigned_class : option string;
  created_at : string;
  updated_at : string
}.

Record Child : Type := mkChild {
  child_id : string;
  child_name : string;
  class_id : string;
  enrollment_date : string;
  birth_date : option string;
  guardian_name : option string;
  guardian_phone : option string;
  guardian_email : option string;
  medical_notes : option string;
  dietary_restrictions : option string;
  emergency_contact : option string;
  child_created_at : string;
  child_updated_at : string
}.

Record GenerationHistory : Type := mkGenerationHistory {
  gh_id : string;
  gh_user_id : string;
  gh_type : string;
  gh_input : string;
  gh_output : string;
  gh_model_used : option string;
  gh_tokens_used : option Z;
  gh_created_at : string;
  gh_updated_at : string
}.

(** [Omit<GenerationHistory, 'id' | 'created_at' | 'updated_at'>] *)
Record GenerationHistoryInsert : Type := mkGenerationHistoryInsert {
  user_id : string;
  type : string;
  input : string;
  output : string;
  model_used : option string;
  tokens_used : option Z
}.

(** The object passed as [updates]: a field is [None] when the object
    has no such key.  The declared type is
    [Partial<Omit<User, 'id' | 'created_at'>>], but an object of that
    type may own the keys [id] and [created_at] as well (only object
    literals are checked for excess keys), and the code forwards every
    own key; so the record has a field for each column of the table. *)
Record UserProfileUpdate : Type := mkUserProfileUpdate {
  upd_id : option string;
  upd_email : option string;
  upd_name : option string;
  upd_assigned_class : option string;
  upd_created_at : option string;
  upd_updated_at : option string
}.

Definition has_key {A} (o : option A) : nat :=
  match o with
  | Some _ => 1
  | None => 0
  end.

(** [Object.keys(updates).length] *)
Definition keys_length (u : UserProfileUpdate) : nat :=
  (has_key (upd_id u) + has_key (upd_email u) + has_key (upd_name u) +
   has_key (upd_assigned_class u) + has_key (upd_created_at u) +
   has_key (upd_updated_at u))%nat.

(** *** Errors *)

(** The three error classes of the module, and [JsError] for any other
    thrown value.  [DatabaseError] carries its [code]; its [details]
    (the client's error object) are not represented. *)
Inductive Exn : Type :=
| DatabaseError (message : string) (code : option string)
| AuthenticationError (message : string)
| PermissionError (message : string)
| JsError (message : string).

(** [new AuthenticationError()] *)
Definition AuthenticationError_default : Exn :=
  AuthenticationError "ユーザー認証が必要です".

Definition isDatabaseError (e : Exn) : bool :=
  match e with DatabaseError _ _ => true | _ => false end.
Definition isAuthenticationError (e : Exn) : bool :=
  match e with AuthenticationError _ => true | _ => false end.
Definition isPermissionError (e : Exn) : bool :=
  match e with PermissionError _ => true | _ => false end.

(** *** The Supabase client and the tables behind it *)

(** The query built on [supabase.from('children').select('*')]. *)
Record ChildrenQuery : Type := mkChildrenQuery {
  eq_class_id : option string;
  order_name : bool
}.

Definition from_children_select : ChildrenQuery :=
  {| eq_class_id := None; order_name := false |}.
Definition query_eq_class_id (v : string) (q : ChildrenQuery) : ChildrenQuery :=
  {| eq_class_id := Some v; order_name := order_name q |}.
Definition query_order_name (q : ChildrenQuery) : ChildrenQuery :=
  {| eq_class_id := eq_class_id q; order_name := true |}.

(** The requests the module sends to the client. *)
Inductive ClientCall : Type :=
| AuthGetUser
| UsersSelectSingle (userId : string)
| UsersUpdateSingle (userId : string) (values : UserProfileUpdate)
| ChildrenSelect (query : ChildrenQuery)
| HistoryInsertSingle (values : GenerationHistoryInsert)
                      (created updated : string).

(** A failure of the service on a request: an [{ error }] reply with a
    code, or a thrown exception. *)
Inductive Fault : Type :=
| ReplyError (code : string)
| ClientThrows (message : string).

(** [{ data: { user }, error }] of [supabase.auth.getUser()] *)
Record AuthUser : Type := mkAuthUser { auth_id : string }.

Record GetUserReply : Type := mkGetUserReply {
  data_user : option AuthUser;
  auth_error : option string
}.

(** What is fixed during a call: who the caller is, where the service
    fails, what [new Date().toISOString()] gives when the call reads the
    clock and what it gives when the call reads it again, and the id the
    store gives to an inserted row. *)
Record Supabase : Type := mkSupabase {
  auth_getUser : Outcome GetUserReply;
  fault : ClientCall -> option Fault;
  clock : string;
  clock_again : string;
  generated_id : string
}.

Record Tables : Type := mkTables {
  users : gmap string User;
  children : list Child;
  generation_history : list GenerationHistory
}.

(** The tables, the requests sent so far, and the console. *)
Record World : Type := mkWorld {
  tables : Tables;
  calls : list ClientCall;
  console : list string
}.

Definition record_call (c : ClientCall) (w : World) : World :=
  {| tables := tables w; calls := calls w ++ [c]; console := console w |}.
Definition console_error (line : string) (w : World) : World :=
  {| tables := tables w; calls := calls w; console := console w ++ [line] |}.
Definition set_tables (t : Tables) (w : World) : World :=
  {| tables := t; calls := calls w; console := console w |}.

(** *** Computations that change the world and may throw *)

Inductive Result (A : Type) : Type :=
| Ok (a : A)
| Throw (e : Exn).
Arguments Ok {A} a.
Arguments Throw {A} e.

Definition M (A : Type) : Type := World -> Result A * World.

Definition ret {A} (a : A) : M A := fun w => (Ok a, w).
Definition throw {A} (e : Exn) : M A := fun w => (Throw e, w).
Definition bind {A B} (m : M A) (k : A -> M B) : M B :=
  fun w =>
    match m w with
    | (Ok a, w') => k a w'
    | (Throw e, w') => (Throw e, w')
    end.
Definition try_catch {A} (body : M A) (handler : Exn -> M A) : M A :=
  fun w =>
    match body w with
    | (Ok a, w') => (Ok a, w')
    | (Throw e, w') => handler e w'
    end.

Notation "'await' x := m 'in' k" := (bind m (fun x => k))
  (at level 10, x name, m at level 100, k at level 200).

(** [{ data, error }] of a table request *)
Inductive Reply (A : Type) : Type :=
| Data (a : A)
| Error (code : string).
Arguments Data {A} a.
Arguments Error {A} code.

(** A request: it is recorded, the service may fail on it, and
    otherwise the tables answer. *)
Definition request {A} (sb : Supabase) (c : ClientCall)
           (answer : Tables -> Reply A * Tables) : M (Reply A) :=
  fun w =>
    let w := record_call c w in
    match fault sb c with
    | Some (ClientThrows m) => (Throw (JsError m), w)
    | Some (ReplyError code) => (Ok (Error code), w)
    | None =>
        let '(r, t) := answer (tables w) in
        (Ok r, set_tables t w)
    end.

(** [.from('users').select('*').eq('id', userId).single()]: the row, or
    the error [PGRST116] when there is none. *)
Definition users_select_single (sb : Supabase) (userId : string)
  : M (Reply User) :=
  request sb (UsersSelectSingle userId)
    (fun t =>
       match users t !! userId with
       | Some row => (Data row, t)
       | None => (Error "PGRST116", t)
       end).

(** The row with the columns of [values] written over it. *)
Definition apply_update (values : UserProfileUpdate) (row : User) : User :=
  {| id := default (id row) (upd_id values);
     email := default (email row) (upd_email values);
     name := default (name row) (upd_name values);
     assigned_class :=
       match upd_assigned_class values with
       | Some c => Some c
       | None => assigned_class row
       end;
     created_at := default (created_at row) (upd_created_at values);
     updated_at := default (updated_at row) (upd_updated_at values) |}.

(** The key of the row after the update: the [id] of [values] when it
    has one. *)
Definition key_after (userId : string) (values : UserProfileUpdate) : string :=
  default userId (upd_id values).

(** The table accepts the key: it is the key the row has, or no row has
    it. *)
Definition key_free (userId key : string) (rows : gmap string User) : bool :=
  bool_decide (key = userId) || bool_decide (rows !! key = None).

(** [.from('users').update(values).eq('id', userId).select().single()]:
    the table is keyed by [id], its primary key; an update that gives the
    row the [id] of another row is answered with the error [23505]
    (duplicate key). *)
Definition users_update_single (sb : Supabase) (userId : string)
           (values : UserProfileUpdate) : M (Reply User) :=
  request sb (UsersUpdateSingle userId values)
    (fun t =>
       match users t !! userId with
       | Some row =>
           let row' := apply_update values row in
           let key := key_after userId values in
           if key_free userId key (users t)
           then (Data row',
                 {| users := <[key := row']> (delete userId (users t));
                    children := children t;
                    generation_history := generation_history t |})
           else (Error "23505", t)
       | None => (Error "PGRST116", t)
       end).

Fixpoint insert_by_name (c : Child) (sorted : list Child) : list Child :=
  match sorted with
  | [] => [c]
  | d :: rest =>
      if String.leb (child_name c) (child_name d)
      then c :: d :: rest
      else d :: insert_by_name c rest
  end.

Definition run_children_query (q : ChildrenQuery) (rows : list Child)
  : list Child :=
  let rows :=
    match eq_class_id q with
    | Some v => filter (fun c => String.eqb (class_id c) v) rows
    | None => rows
    end in
  if order_name q then fold_right insert_by_name [] rows else rows.

(** [await query] on the children table *)
Definition children_select (sb : Supabase) (q : ChildrenQuery)
  : M (Reply (list Child)) :=
  request sb (ChildrenSelect q)
    (fun t => (Data (run_children_query q (children t)), t)).

(** [.from('generation_history').insert(values).select().single()] *)
Definition history_insert_single (sb : Supabase)
           (values : GenerationHistoryInsert) (created updated : string)
  : M (Reply GenerationHistory) :=
  request sb (HistoryInsertSingle values created updated)
    (fun t =>
       let row :=
         {| gh_id := generated_id sb;
            gh_user_id := user_id values;
            gh_type := type values;
            gh_input := input values;
            gh_output := output values;
            gh_model_used := model_used values;
            gh_tokens_used := tokens_used values;
            gh_created_at := created;
            gh_updated_at := updated |} in
       (Data row,
        {| users := users t;
           children := children t;
           generation_history := generation_history t ++ [row] |})).

(** [getCurrentUser] of [src/lib/supabase.ts] *)
Definition getCurrentUser (sb : Supabase) : M (option AuthUser) :=
  fun w =>
    let w := record_call AuthGetUser w in
    match auth_getUser sb with
    | Throws _ => (Ok None, console_error "Failed to get current user:" w)
    | Returns reply =>
        match auth_error reply with
        | Some _ => (Ok None, console_error "Error getting user:" w)
        | None => (Ok (data_user reply), w)
        end
    end.

(** The [catch] blocks: an error of a listed class is thrown again, any
    other is logged and replaced. *)
Definition rethrow_or_wrap {A} (listed : Exn -> bool)
           (line wrapped : string) (e : Exn) : M A :=
  if listed e then throw e
  else fun w => (Throw (DatabaseError wrapped None), console_error line w).

(** *** [getUserProfile] *)

Definition getUserProfile (sb : Supabase) (userId : string)
  : M (option User) :=
  try_catch
    (if negb (truthy userId)
     then throw (DatabaseError "有効なユーザーIDが必要です" None)
     else
       await currentUser := getCurrentUser sb in
       match currentUser with
       | None => throw AuthenticationError_default
       | Some _ =>
           await r := users_select_single sb userId in
           match r with
           | Error code =>
               if String.eqb code "PGRST116"
               then ret None
               else throw (DatabaseError
                             "ユーザープロファイルの取得に失敗しました"
                             (Some code))
           | Data row => ret (Some row)
           end
       end)
    (rethrow_or_wrap
       (fun e => isDatabaseError e || isAuthenticationError e)
       "getUserProfile error:"
       "ユーザープロファイルの取得中に予期しないエラーが発生しました").

(** *** [updateUserProfile] *)

Definition validClasses : list string := ["koala"; "bear"; "giraffe"]%string.

(** ['assigned_class' in updates && updates.assigned_class], then the
    membership test: [true] when the update passes. *)
Definition assigned_class_accepted (updates : UserProfileUpdate) : bool :=
  match upd_assigned_class updates with
  | Some c =>
      if truthy c then existsb (String.eqb c) validClasses else true
  | None => true
  end.

Definition updateUserProfile (sb : Supabase) (userId : string)
           (updates : option UserProfileUpdate) : M User :=
  try_catch
    (if negb (truthy userId)
     then throw (DatabaseError "有効なユーザーIDが必要です" None)
     else
       match updates with
       | None => throw (DatabaseError "更新するデータが必要です" None)
       | Some updates =>
           if Nat.eqb (keys_length updates) 0
           then throw (DatabaseError "更新するデータが必要です" None)
           else
             await currentUser := getCurrentUser sb in
             match currentUser with
             | None => throw AuthenticationError_default
             | Some currentUser =>
                 if negb (String.eqb (auth_id currentUser) userId)
                 then throw (PermissionError
                               "他のユーザーのプロファイルを更新する権限がありません")
                 else if negb (assigned_class_accepted updates)
                 then throw (DatabaseError
                               ("無効なクラス指定です。有効な値: "
                                +:+ join ", " validClasses) None)
                 else
                   await r := users_update_single sb userId
                          {| upd_id := upd_id updates;
                             upd_email := upd_email updates;
                             upd_name := upd_name updates;
                             upd_assigned_class := upd_assigned_class updates;
                             upd_created_at := upd_created_at updates;
                             upd_updated_at := Some (clock sb) |} in
                   match r with
                   | Error code =>
                       throw (DatabaseError
                                "ユーザープロファイルの更新に失敗しました"
                                (Some code))
                   | Data row => ret row
                   end
             end
       end)
    (rethrow_or_wrap
       (fun e => isDatabaseError e || isAuthenticationError e
                 || isPermissionError e)
       "updateUserProfile error:"
       "ユーザープロファイルの更新中に予期しないエラーが発生しました").

(** *** [getChildren] *)

Definition getChildren (sb : Supabase) (classId : option string)
  : M (list Child) :=
  try_catch
    (await currentUser := getCurrentUser sb in
     match currentUser with
     | None => throw AuthenticationError_default
     | Some currentUser =>
         await userProfile := getUserProfile sb (auth_id currentUser) in
         match userProfile with
         | None => throw (AuthenticationError
                            "ユーザープロファイルが見つかりません")
         | Some userProfile =>
             let query := from_children_select in
             await query :=
               (if truthy_opt classId then
                  let classId := default ""%string classId in
                  if truthy_opt (assigned_class userProfile) &&
                     negb (bool_decide (assigned_class userProfile = Some classId))
                  then throw (PermissionError
                                "指定されたクラスにアクセスする権限がありません")
                  else ret (query_eq_class_id classId query)
                else
                  match assigned_class userProfile with
                  | Some own =>
                      if truthy own
                      then ret (query_eq_class_id own query)
                      else ret query
                  | None => ret query
                  end) in
             let query := query_order_name query in
             await r := children_select sb query in
             match r with
             | Error code =>
                 throw (DatabaseError "子ども情報の取得に失敗しました"
                                      (Some code))
             | Data rows => ret rows
             end
         end
     end)
    (rethrow_or_wrap
       (fun e => isDatabaseError e || isAuthenticationError e
                 || isPermissionError e)
       "getChildren error:"
       "子ども情報の取得中に予期しないエラーが発生しました").

(** *** [saveGenerationHistory] *)

Definition validTypes : list string := ["email"; "diary"; "record"]%string.

Definition saveGenerationHistory (sb : Supabase)
           (data : option GenerationHistoryInsert) : M GenerationHistory :=
  try_catch
    (match data with
     | None => throw (DatabaseError "有効な生成履歴データが必要です" None)
     | Some data =>
         if negb (truthy (user_id data)) || negb (truthy (type data)) ||
            negb (truthy (input data)) || negb (truthy (output data))
         then throw (DatabaseError
                       "必須フィールドが不足しています: user_id, type, input, output"
                       None)
         else if negb (existsb (String.eqb (type data)) validTypes)
         then throw (DatabaseError
                       ("無効な生成タイプです。有効な値: "
                        +:+ join ", " validTypes) None)
         else
           await currentUser := getCurrentUser sb in
           match currentUser with
           | None => throw AuthenticationError_default
           | Some currentUser =>
               if negb (String.eqb (auth_id currentUser) (user_id data))
               then throw (PermissionError
                             "他のユーザーの生成履歴を保存する権限がありません")
               else
                 await r := history_insert_single sb data
                              (clock sb) (clock_again sb) in
                 match r with
                 | Error code =>
                     throw (DatabaseError "生成履歴の保存に失敗しました"
                                          (Some code))
                 | Data savedData => ret savedData
                 end
           end
     end)
    (rethrow_or_wrap
       (fun e => isDatabaseError e || isAuthenticationError e
                 || isPermissionError e)
       "saveGenerationHistory error:"
       "生成履歴の保存中に予期しないエラーが発生しました").

(** *** Vocabulary of the statements *)

(** The caller is authenticated as [caller]: [supabase.auth.getUser()]
    answers with that user and no error. *)
Definition authenticatedAs (sb : Supabase) (caller : AuthUser) : Prop :=
  auth_getUser sb =
  Returns {| data_user := Some caller; auth_error := None |}.

(** The requests of a computation that go to the children table. *)
Definition readsChildren (c : ClientCall) : bool :=
  match c with
  | ChildrenSelect _ => true
  | _ => false
  end.

(** The requests of a computation that write to a table. *)
Definition writesTable (c : ClientCall) : bool :=
  match c with
  | UsersUpdateSingle _ _ | HistoryInsertSingle _ _ _ => true
  | _ => false
  end.

End Database.

(** ** The token store: [customStorage] of [src/lib/supabase.ts] *)

Module TokenStore.

(** The browser as the storage object sees it: whether there is a
    [window]; [localStorage], or [None] when touching it throws; the
    cookies [document.cookie] shows, as name and value in the order it
    lists them; the strings assigned to [document.cookie]; the console. *)
Record Browser : Type := mkBrowser {
  window_defined : bool;
  localStorage : option (gmap string string);
  jar : list (string * string);
  assigned : list string;
  warnings : list string
}.

Definition with_localStorage (ls : option (gmap string string)) (b : Browser)
  : Browser :=
  {| window_defined := window_defined b; localStorage := ls; jar := jar b;
     assigned := assigned b; warnings := warnings b |}.

Definition warn (line : string) (b : Browser) : Browser :=
  {| window_defined := window_defined b; localStorage := localStorage b;
     jar := jar b; assigned := assigned b;
     warnings := warnings b ++ [line] |}.

(** A cookie with that name takes the value in place; a new one comes
    last. *)
Fixpoint jar_store (name value : string) (cookies : list (string * string))
  : list (string * string) :=
  match cookies with
  | [] => [(name, value)]
  | (n, v) :: rest =>
      if String.eqb n name then (name, value) :: rest
      else (n, v) :: jar_store name value rest
  end.

Fixpoint jar_expire (name : string) (cookies : list (string * string))
  : list (string * string) :=
  match cookies with
  | [] => []
  | (n, v) :: rest =>
      if String.eqb n name then jar_expire name rest
      else (n, v) :: jar_expire name rest
  end.

Fixpoint jar_lookup (name : string) (cookies : list (string * string))
  : option string :=
  match cookies with
  | [] => None
  | (n, v) :: rest =>
      if String.eqb n name then Some v else jar_lookup name rest
  end.

(** [document.cookie = text], for a text that sets [name] to [value]
    with a positive [max-age], and for one that gives [name] an expiry
    date in the past. *)
Definition assign_cookie (name value text : string) (b : Browser) : Browser :=
  {| window_defined := window_defined b; localStorage := localStorage b;
     jar := jar_store name value (jar b);
     assigned := assigned b ++ [text]; warnings := warnings b |}.

Definition assign_expired (name text : string) (b : Browser) : Browser :=
  {| window_defined := window_defined b; localStorage := localStorage b;
     jar := jar_expire name (jar b);
     assigned := assigned b ++ [text]; warnings := warnings b |}.

(** Reading [document.cookie]: [name=value] pairs joined by ["; "]. *)
Definition pair_text (nv : string * string) : string :=
  fst nv +:+ "=" +:+ snd nv.

Definition document_cookie (b : Browser) : string :=
  String.concat "; " (map pair_text (jar b)).

(** [s.split(sep)] for a separator of one character *)
Fixpoint split (sep : ascii) (s : string) : list string :=
  match s with
  | EmptyString => [EmptyString]
  | String c rest =>
      if Ascii.eqb c sep then EmptyString :: split sep rest
      else match split sep rest with
           | piece :: pieces => String c piece :: pieces
           | [] => [String c EmptyString]
           end
  end.

Definition cookieNameOf (key : string) : string :=
  if includes key "access" then "sb-access-token"%string
  else "sb-refresh-token"%string.

Section Platform.

(** [String.prototype.trim], [encodeURIComponent], [decodeURIComponent]
    (which throws on a malformed text), and whether [NODE_ENV] is
    [production]. *)
Variable trim : string -> string.
Variable encodeURIComponent : string -> string.
Variable decodeURIComponent : string -> Outcome string.
Variable production : bool.

(** [getItem] *)
Definition getItem (key : string) (b : Browser)
  : Outcome (option string) * Browser :=
  if negb (window_defined b) then (Returns None, b)
  else
    let '(item, b) :=
      match localStorage b with
      | Some entries => (entries !! key, b)
      | None => (None, warn "Failed to access localStorage:" b)
      end in
    if truthy_opt item then (Returns item, b)
    else if includes key "auth-token" then
      let cookies := split ";" (document_cookie b) in
      let cookieName := cookieNameOf key in
      match List.find (fun c => startsWith (trim c) (cookieName +:+ "="))
                      cookies with
      | Some cookie =>
          match decodeURIComponent
                  (nth 1 (split "=" cookie) "undefined"%string) with
          | Returns v => (Returns (Some v), b)
          | Throws m => (Throws m, b)
          end
      | None => (Returns None, b)
      end
    else (Returns None, b).

(** [setItem] *)
Definition setItem (key value : string) (b : Browser) : Browser :=
  if negb (window_defined b) then b
  else
    let b :=
      match localStorage b with
      | Some entries => with_localStorage (Some (<[key := value]> entries)) b
      | None => warn "Failed to set localStorage:" b
      end in
    if includes key "auth-token" then
      let cookieName := cookieNameOf key in
      let maxAge : Z :=
        if includes key "access" then 60 * 60 * 24 * 7 else 60 * 60 * 24 * 30 in
      assign_cookie cookieName (encodeURIComponent value)
        (cookieName +:+ "=" +:+ encodeURIComponent value +:+
         "; path=/; max-age=" +:+ pretty maxAge +:+ "; SameSite=Lax" +:+
         (if production then "; Secure" else ""))
        b
    else b.

(** [removeItem] *)
Definition removeItem (key : string) (b : Browser) : Browser :=
  if negb (window_defined b) then b
  else
    let b :=
      match localStorage b with
      | Some entries => with_localStorage (Some (delete key entries)) b
      | None => warn "Failed to remove from localStorage:" b
      end in
    if includes key "auth-token" then
      let cookieName := cookieNameOf key in
      assign_expired cookieName
        (cookieName +:+ "=; path=/; expires=Thu, 01 Jan 1970 00:00:01 GMT") b
    else b.

End Platform.

(** *** What the statements assume of the platform and of the jar *)

(** A visible ASCII character other than the semicolon. *)
Definition cookie_octet (c : ascii) : bool :=
  (32 <? nat_of_ascii c)%nat && (nat_of_ascii c <? 127)%nat &&
  negb (Ascii.eqb c ";").

Fixpoint all_chars (ok : ascii -> bool) (s : string) : bool :=
  match s with
  | EmptyString => true
  | String c rest => ok c && all_chars ok rest
  end.

(** Texts of cookie octets, and those among them without equals sign. *)
Definition octets (s : string) : bool := all_chars cookie_octet s.
Definition token (s : string) : bool :=
  all_chars (fun c => cookie_octet c && negb (Ascii.eqb c "=")) s.

(** What is used of the three platform functions: [trim] drops a leading
    space and leaves a text of visible characters alone;
    [encodeURIComponent] produces cookie octets without equals sign, and
    [decodeURIComponent] undoes it. *)
Record PlatformLaws (trim encode : string -> string)
       (decode : string -> Outcome string) : Prop := {
  trim_space : forall s, trim (String " " s) = trim s;
  trim_octets : forall s, octets s = true -> trim s = s;
  encode_token : forall v, token (encode v) = true;
  decode_encode : forall v, decode (encode v) = Returns v
}.

(** The cookies of the jar have distinct names, names without equals
    sign, and names and values made of cookie octets. *)
Fixpoint wellFormed (cookies : list (string * string)) : Prop :=
  match cookies with
  | [] => True
  | (n, v) :: rest =>
      token n = true /\ octets v = true /\ jar_lookup n rest = None /\
      wellFormed rest
  end.

(** *** A platform for the examples: a [trim] of ASCII blanks, and a
    codec that writes each byte as two hexadecimal digits *)

Definition blank (c : ascii) : bool := (nat_of_ascii c <=? 32)%nat.

Fixpoint trim_start (s : string) : string :=
  match s with
  | EmptyString => EmptyString
  | String c rest => if blank c then trim_start rest else s
  end.

Fixpoint trim_end (s : string) : string :=
  match s with
  | EmptyString => EmptyString
  | String c rest =>
      match trim_end rest with
      | EmptyString => if blank c then EmptyString else String c EmptyString
      | kept => String c kept
      end
  end.

Definition ascii_trim (s : string) : string := trim_end (trim_start s).

Definition hex_digit (n : nat) : ascii :=
  nth n (list_ascii_of_string "0123456789abcdef") "0"%char.

Fixpoint hex_value_from (digits : list ascii) (c : ascii) (i : nat)
  : option nat :=
  match digits with
  | [] => None
  | d :: rest => if Ascii.eqb c d then Some i else hex_value_from rest c (S i)
  end.

Definition hex_value (c : ascii) : option nat :=
  hex_value_from (list_ascii_of_string "0123456789abcdef") c 0.

Fixpoint hex_encode (s : string) : string :=
  match s with
  | EmptyString => EmptyString
  | String c rest =>
      String (hex_digit (nat_of_ascii c / 16))
        (String (hex_digit (nat_of_ascii c mod 16)) (hex_encode rest))
  end.

Fixpoint hex_decode (s : string) : Outcome string :=
  match s with
  | EmptyString => Returns EmptyString
  | String hi (String lo rest) =>
      match hex_value hi, hex_value lo, hex_decode rest with
      | Some h, Some l, Returns decoded =>
          Returns (String (ascii_of_nat (16 * h + l)) decoded)
      | _, _, _ => Throws "URI malformed"
      end
  | String _ EmptyString => Throws "URI malformed"
  end.

End TokenStore.

(** ** Vocabulary for the statements about the data-access layer *)

Module DatabaseVocabulary.

Import Database.

(** The value of [getCurrentUser]: the user of the reply, or null when
    the client throws or reports an error. *)
Definition currentUser (sb : Supabase) : option AuthUser :=
  match auth_getUser sb with
  | Returns reply =>
      match auth_error reply with
      | Some _ => None
      | None => data_user reply
      end
  | Throws _ => None
  end.

(** The requests that go to a table. *)
Definition isTableCall (c : ClientCall) : bool :=
  match c with
  | AuthGetUser => false
  | _ => true
  end.

(** The thrown value is one of the module's three error classes. *)
Definition isModuleError (e : Exn) : bool :=
  isDatabaseError e || isAuthenticationError e || isPermissionError e.

(** What a run may have done to the world when it sent no request to a
    table: the tables are the same and so are the table requests on
    record. *)
Definition untouched (w w' : World) : Prop :=
  tables w' = tables w /\
  filter isTableCall (calls w') = filter isTableCall (calls w).

(** The rows of the children table a query selects. *)
Definition selected (q : ChildrenQuery) (c : Child) : bool :=
  match eq_class_id q with
  | Some v => String.eqb (class_id c) v
  | None => true
  end.

End DatabaseVocabulary.

(** ** The rest of the session context: [src/lib/auth.tsx] *)

Module AuthProvider.

Import AuthContext.

(** [User] and [Session] of the Supabase client, with the metadata fields
    the module reads; dates are the instants they denote, in
    milliseconds. *)
Record SupabaseUser : Type := mkSupabaseUser {
  sb_id : string;
  sb_email : option string;
  meta_name : option string;
  meta_avatar_url : option string;
  meta_assigned_class : option string;
  meta_role : option UserRole;
  email_confirmed_at : option string;
  sb_created_at : Z;
  sb_updated_at : option Z
}.

Record SupabaseSession : Type := mkSupabaseSession {
  sb_user : SupabaseUser;
  sb_access_token : string;
  sb_refresh_token : string;
  sb_expires_at : option Z
}.

(** [s.split(sep)[0]] *)
Fixpoint split_head (sep : ascii) (s : string) : string :=
  match s with
  | EmptyString => EmptyString
  | String c rest =>
      if Ascii.eqb c sep then EmptyString else String c (split_head sep rest)
  end.

(** [convertToAuthUser] *)
Definition convertToAuthUser (u : SupabaseUser) : AuthUser :=
  {| id := sb_id u;
     email := default ""%string (sb_email u);
     name :=
       if truthy_opt (meta_name u) then default ""%string (meta_name u)
       else match sb_email u with
            | Some e => split_head "@" e
            | None => ""%string
            end;
     avatar_url := meta_avatar_url u;
     assigned_class := meta_assigned_class u;
     role := Some (default teacher (meta_role u));
     email_verified := truthy_opt (email_confirmed_at u);
     created_at := sb_created_at u;
     updated_at := default (sb_created_at u) (sb_updated_at u) |}.

(** [convertToAuthSession], with [Date.now()] in milliseconds *)
Definition convertToAuthSession (date_now : Z) (s : SupabaseSession)
  : AuthSession :=
  {| user := convertToAuthUser (sb_user s);
     access_token := sb_access_token s;
     refresh_token := Some (sb_refresh_token s);
     expires_at :=
       match sb_expires_at s with
       | Some e => if negb (e =? 0) then e * 1000 else date_now + 3600000
       | None => date_now + 3600000
       end;
     session_id := sb_access_token s |}.

(** [{ data: { session }, error }] and [{ data: { user, session }, error }]
    of the client's auth calls, and [{ error }] of the others. *)
Record SessionReply : Type := mkSessionReply {
  reply_session : option SupabaseSession;
  reply_error : option ClientError
}.

Record SignUpReply : Type := mkSignUpReply {
  signup_user : option SupabaseUser;
  signup_session : option SupabaseSession;
  signup_error : option ClientError
}.

(** [src/types/auth.ts]: the forms *)
Record LoginForm : Type := mkLoginForm {
  login_email : string;
  login_password : string;
  remember_me : option bool
}.

Record RegisterForm : Type := mkRegisterForm {
  reg_email : string;
  reg_password : string;
  reg_confirm_password : string;
  reg_name : string;
  reg_assigned_class : option string
}.

Record ResetPasswordForm : Type := mkResetPasswordForm {
  reset_email : string
}.

Record ChangePasswordForm : Type := mkChangePasswordForm {
  current_password : string;
  new_password : string;
  confirm_password : string
}.

(** The calls an operation makes to [supabase.auth]. *)
Inductive RemoteCall : Type :=
| SignInWithPassword (email password : string)
| SignUp (email password name : string) (class : option string)
           (role : string)
| ResetPasswordForEmail (email redirectTo : string)
| UpdateUser (password : string).

Definition failure {T : Type} (message code : string) (field : option string)
  : AuthResponse T :=
  {| data := None;
     error := Some {| message := message; code := Some code; field := field |};
     success := false |}.

Definition succeeded {T : Type} (d : option T) : AuthResponse T :=
  {| data := d; error := None; success := true |}.

(** The [catch] of every operation: [handleAuthError(error as Error)]. *)
Definition caught {T : Type} (thrown : ClientError) (c : Context)
  : AuthResponse T * Context :=
  (handleAuthError thrown, console_error "Auth error:" c).

(** The listener given to [supabase.auth.onAuthStateChange]; its
    [console.log] line is kept with the others of the console. *)
Definition onAuthStateChange (event : string)
           (currentSession : option SupabaseSession) (date_now : Z)
           (c : Context) : Context :=
  let c := console_error ("Auth state changed: " +:+ event) c in
  let c :=
    match currentSession with
    | Some currentSession =>
        let authSession := convertToAuthSession date_now currentSession in
        setUser (Some (user authSession)) (setSession (Some authSession) c)
    | None => setUser None (setSession None c)
    end in
  setLoading false c.

(** [document.cookie = 'name=value; ...; max-age=...'] with a positive
    [max-age] *)
Definition store_cookie (cookie value : string) (c : Context) : Context :=
  {| ctx_user := ctx_user c; ctx_session := ctx_session c;
     loading := loading c; window_defined := window_defined c;
     document_cookie := <[cookie := value]> (document_cookie c);
     console := console c |}.

(** What the client does, besides answering, while one of its calls is
    awaited: it notifies the listener of a change of session, at some
    time; and it stores or removes a token through its storage object
    ([customStorage], see [TokenStore]), which in a browser writes the
    token cookie or expires it. *)
Inductive ClientAct : Type :=
| Notifies (event : string) (currentSession : option SupabaseSession)
           (date_now : Z)
| WritesCookie (cookie : string) (value : option string).

Definition act (a : ClientAct) (c : Context) : Context :=
  match a with
  | Notifies event currentSession date_now =>
      onAuthStateChange event currentSession date_now c
  | WritesCookie cookie (Some value) =>
      if window_defined c then store_cookie cookie value c else c
  | WritesCookie cookie None =>
      if window_defined c then expire_cookie cookie c else c
  end.

Definition during (acts : list ClientAct) (c : Context) : Context :=
  fold_left (fun c a => act a c) acts c.

(** A call of the client: what it did while it was awaited, and how it
    ended. *)
Record Remote (A : Type) : Type := mkRemote {
  activity : list ClientAct;
  outcome : Awaited A
}.
Arguments mkRemote {A} activity outcome.
Arguments activity {A} r.
Arguments outcome {A} r.


(** [signIn] *)
Definition signIn (credentials : LoginForm) (remote : Remote SessionReply)
           (date_now : Z) (c : Context)
  : AuthResponse AuthSession * Context * list RemoteCall :=
  let c := setLoading true c in
  let c := during (activity remote) c in
  let '(result, c) :=
    match outcome remote with
    | Resolves reply =>
        match reply_error reply with
        | Some error => (handleAuthError error, console_error "Auth error:" c)
        | None =>
            match reply_session reply with
            | None =>
                (failure "No session returned from sign in" "no_session" None, c)
            | Some s => (succeeded (Some (convertToAuthSession date_now s)), c)
            end
        end
    | Rejects thrown => caught thrown c
    end in
  (result, setLoading false c,
   [SignInWithPassword (login_email credentials) (login_password credentials)]).

(** [signUp] *)
Definition signUp (credentials : RegisterForm) (remote : Remote SignUpReply)
           (c : Context)
  : AuthResponse (AuthUser * bool) * Context * list RemoteCall :=
  let c := setLoading true c in
  if negb (String.eqb (reg_password credentials)
                      (reg_confirm_password credentials))
  then (failure "Passwords do not match" "password_mismatch"
                (Some "confirm_password"%string),
        setLoading false c, [])
  else
    let c := during (activity remote) c in
    let '(result, c) :=
      match outcome remote with
      | Resolves reply =>
          match signup_error reply with
          | Some error => (handleAuthError error, console_error "Auth error:" c)
          | None =>
              match signup_user reply with
              | None => (failure "No user returned from sign up" "no_user" None, c)
              | Some u =>
                  let authUser := convertToAuthUser u in
                  let needsVerification :=
                    match signup_session reply with
                    | Some _ => false
                    | None => true
                    end in
                  (succeeded (Some (authUser, needsVerification)), c)
              end
          end
      | Rejects thrown => caught thrown c
      end in
    (result, setLoading false c,
     [SignUp (reg_email credentials) (reg_password credentials)
             (reg_name credentials) (reg_assigned_class credentials)
             "teacher"]).

(** [resetPassword], with [window.location.origin]; reading [window]
    where there is none throws a [ReferenceError], which the [catch]
    handles. *)
Definition resetPassword (form : ResetPasswordForm) (location_origin : string)
           (remote : Remote (option ClientError)) (c : Context)
  : AuthResponse unit * Context * list RemoteCall :=
  if negb (window_defined c)
  then (caught {| err_message := "window is not defined";
                  err_status := None |} c, [])
  else
    let calls :=
      [ResetPasswordForEmail (reset_email form)
         (location_origin +:+ "/auth/reset-password")] in
    let c := during (activity remote) c in
    match outcome remote with
    | Resolves (Some error) =>
        (handleAuthError error, console_error "Auth error:" c, calls)
    | Resolves None => (succeeded None, c, calls)
    | Rejects thrown => (caught thrown c, calls)
    end.

(** [changePassword] *)
Definition changePassword (form : ChangePasswordForm)
           (remote : Remote (option ClientError)) (c : Context)
  : AuthResponse unit * Context * list RemoteCall :=
  if negb (String.eqb (new_password form) (confirm_password form))
  then (failure "New passwords do not match" "password_mismatch"
                (Some "confirm_password"%string), c, [])
  else
    let calls := [UpdateUser (new_password form)] in
    let c := during (activity remote) c in
    match outcome remote with
    | Resolves (Some error) =>
        (handleAuthError error, console_error "Auth error:" c, calls)
    | Resolves None => (succeeded None, c, calls)
    | Rejects thrown => (caught thrown c, calls)
    end.

(** [refreshSession], given what [supabase.auth.refreshSession()] does *)
Definition refreshSession (remote : Remote SessionReply) (date_now : Z)
           (c : Context) : Context :=
  let c := during (activity remote) c in
  match outcome remote with
  | Resolves reply =>
      match reply_error reply with
      | Some _ => console_error "Error refreshing session:" c
      | None =>
          match reply_session reply with
          | Some s =>
              let authSession := convertToAuthSession date_now s in
              setUser (Some (user authSession)) (setSession (Some authSession) c)
          | None => c
          end
      end
  | Rejects _ => console_error "Failed to refresh session:" c
  end.

(** [useRequireAuth]: the user, or the message of the error thrown. *)
Definition useRequireAuth (c : Context) : Outcome AuthUser :=
  if loading c then Throws "Authentication is still loading"
  else match ctx_user c with
       | None => Throws "User must be authenticated to access this resource"
       | Some u => Returns u
       end.

(** [useOptionalAuth] *)
Definition useOptionalAuth (c : Context) : option AuthUser * bool :=
  (ctx_user c, match ctx_user c with Some _ => true | None => false end).

(** The user and the session of the context go together. *)
Definition consistent (c : Context) : Prop :=
  ctx_user c = user <$> ctx_session c.

(** The identity a context holds. *)
Definition identity (c : Context)
  : option AuthUser * option AuthSession * gmap string string :=
  (ctx_user c, ctx_session c, document_cookie c).

(** The last notification among the acts of the client: its session
    and its time. *)
Definition notification (a : ClientAct)
  : option (option SupabaseSession * Z) :=
  match a with
  | Notifies _ currentSession date_now => Some (currentSession, date_now)
  | WritesCookie _ _ => None
  end.

Definition last_notification (acts : list ClientAct)
  : option (option SupabaseSession * Z) :=
  last (omap notification acts).

(** The user and the session the listener sets on a notification. *)
Definition announced (n : option SupabaseSession * Z)
  : option AuthUser * option AuthSession :=
  let s := convertToAuthSession (snd n) <$> fst n in
  (user <$> s, s).

End AuthProvider.

(** ** Callers of the session context *)

(** [handleLogout] of the header component *)
Module Header.

Import AuthContext.



End Header.

(** [onSubmit] of [src/components/auth/LoginForm.tsx] and of
    [src/components/auth/RegisterForm.tsx] *)
Module Forms.

Import AuthContext.

Inductive FormEffect : Type :=
| SetAuthError (message : option string)
| SetError (field message : string)
| SetSubmitError (message : option string)
| SetIsSubmitting (b : bool)
| SetIsRegistered (b : bool)
| Reset
| ConsoleLog (line : string)
| ConsoleError (line : string)
| RouterPush (destination : string).

(** The login form: [redirectTo] is [searchParams.get('redirect')] of the
    login page, [result] what the awaited [signIn] gives. *)
Definition login_onSubmit (redirectTo : option string)
           (result : Outcome (AuthResponse AuthSession)) : list FormEffect :=
  SetAuthError None ::
  match result with
  | Returns result =>
      if success result then
        let destination :=
          if truthy_opt redirectTo then default ""%string redirectTo
          else "/dashboard"%string in
        [ConsoleLog ("Login successful, redirecting to: " +:+ destination);
         RouterPush destination]
      else
        match error result with
        | Some e =>
            if bool_decide (field e = Some "email"%string)
            then [SetError "email" (message e)]
            else if bool_decide (field e = Some "password"%string)
            then [SetError "password" (message e)]
            else [SetAuthError (Some (message e))]
        | None =>
            [SetAuthError
               (Some "ログインに失敗しました。もう一度お試しください。"%string)]
        end
  | Throws _ =>
      [ConsoleError "Login form error:";
       SetAuthError
         (Some "予期しないエラーが発生しました。もう一度お試しください。"%string)]
  end.

(** The registration form, given what the awaited [signUp] gives. *)
Definition register_onSubmit
           (result : Outcome (AuthResponse (AuthUser * bool)))
  : list FormEffect :=
  [SetIsSubmitting true; SetSubmitError None] ++
  match result with
  | Returns result =>
      match success result, data result with
      | true, Some (_, needsVerification) =>
          SetIsRegistered true ::
          (if needsVerification then [Reset] else [RouterPush "/dashboard"])
      | _, _ =>
          [SetSubmitError
             (Some (match error result with
                    | Some e =>
                        if truthy (message e) then message e
                        else "ユーザー登録に失敗しました"%string
                    | None => "ユーザー登録に失敗しました"%string
                    end))]
      end
  | Throws _ =>
      [ConsoleError "Registration error:";
       SetSubmitError
         (Some "予期しないエラーが発生しました。もう一度お試しください。"%string)]
  end ++ [SetIsSubmitting false].

(** The destinations the form navigates to. *)
Definition pushed (effects : list FormEffect) : list string :=
  omap (fun e => match e with RouterPush d => Some d | _ => None end) effects.

End Forms.

(** ** Concrete requests, callers and stores used in the examples *)

Module Examples.

Import Gateway.

Definition request_for (path : string) : NextRequest :=
  {| nextUrl := {| origin := "https://hoiku.example"; pathname := path;
                   searchParams := [] |};
     req_cookies := ∅ |}.

(** The attributes the client writes a token cookie with, and those it
    removes one with. *)
Definition token_options : CookieOptions :=
  {| maxAge := Some 3600; expires := None; path := Some "/"%string;
     domain := None; sameSite := Some "lax"%string; httpOnly := None;
     secure := None |}.

Definition removal_options : CookieOptions :=
  {| maxAge := Some 0; expires := None; path := Some "/"%string;
     domain := None; sameSite := Some "lax"%string; httpOnly := None;
     secure := None |}.

(** A caller without tokens: the client answers with neither a session
    nor an error. *)
Definition no_reply : AuthReply :=
  {| data_session := None; error := None; cookie_calls := [] |}.

Definition anonymous : SupabaseAuth :=
  {| auth_getSession := fun _ => Returns no_reply;
     auth_refreshSession := fun _ => Returns no_reply |}.

Definition hanako : User :=
  {| user_id := "u-hanako"; user_email := "hanako@hoiku.example" |}.

(** A session that expires at second 10000. *)
Definition hanako_session : Session :=
  {| access_token := "access-1"; refresh_token := "refresh-1";
     expires_at := Some 10000; user := Some hanako |}.

Definition signed_in : SupabaseAuth :=
  {| auth_getSession := fun _ =>
       Returns {| data_session := Some hanako_session; error := None;
                  cookie_calls := [] |};
     auth_refreshSession := fun _ =>
       Returns {| data_session := Some hanako_session; error := None;
                  cookie_calls :=
                    [CallSet "sb-access-token" "access-2" token_options] |} |}.

(** A caller whose tokens the identity service cannot resolve. *)
Definition service_down : SupabaseAuth :=
  {| auth_getSession := fun _ =>
       Returns {| data_session := None; error := Some "service unavailable";
                  cookie_calls := [] |};
     auth_refreshSession := fun _ => Throws "fetch failed" |}.

(** A request that still carries the two token cookies. *)
Definition stale_request (path : string) : NextRequest :=
  {| nextUrl := {| origin := "https://hoiku.example"; pathname := path;
                   searchParams := [] |};
     req_cookies := {[ "sb-access-token"%string := "stale-access"%string;
                       "sb-refresh-token"%string := "stale-refresh"%string ]} |}.

Definition failing_validation
  : NextRequest -> Outcome (SessionResult * list Effect) :=
  fun _ => Throws "fetch failed".

(** The session context of a signed-in browser tab. *)
Definition hanako_auth : AuthContext.AuthUser :=
  AuthContext.mkAuthUser "u-hanako" "hanako@hoiku.example" "hanako"
    None (Some "koala"%string) (Some AuthContext.teacher) true 0 0.

Definition signed_in_tab : AuthContext.Context :=
  {| AuthContext.ctx_user := Some hanako_auth;
     AuthContext.ctx_session :=
       Some (AuthContext.mkAuthSession hanako_auth "access-1"
               (Some "refresh-1"%string) 10000000 "access-1");
     AuthContext.loading := false;
     AuthContext.window_defined := true;
     AuthContext.document_cookie :=
       {[ "sb-access-token"%string := "access-1"%string;
          "sb-refresh-token"%string := "refresh-1"%string ]};
     AuthContext.console := [] |}.

Definition network_failure : AuthContext.ClientError :=
  {| AuthContext.err_message := "Failed to fetch";
     AuthContext.err_status := None |}.

(** A teacher of the koala class, one child in each of two classes. *)
Definition sensei : Database.User :=
  Database.mkUser "u1" "sensei@hoiku.example" "sensei"
    (Some "koala"%string) "2024-04-01T00:00:00.000Z"
    "2024-04-01T00:00:00.000Z".

Definition child_of (cid cname class : string) : Database.Child :=
  Database.mkChild cid cname class "2024-04-01" None None None None None
    None None "2024-04-01T00:00:00.000Z" "2024-04-01T00:00:00.000Z".

Definition taro : Database.Child := child_of "c1" "taro" "koala".
Definition jiro : Database.Child := child_of "c2" "jiro" "bear".

Definition nursery : Database.World :=
  {| Database.tables :=
       {| Database.users := {[ "u1"%string := sensei ]};
          Database.children := [taro; jiro];
          Database.generation_history := [] |};
     Database.calls := [];
     Database.console := [] |}.

(** The client of a caller signed in as [who], with a service that
    does not fail. *)
Definition client_of (who : string) : Database.Supabase :=
  {| Database.auth_getUser :=
       Returns {| Database.data_user := Some (Database.mkAuthUser who);
                  Database.auth_error := None |};
     Database.fault := fun _ => None;
     Database.clock := "2024-05-01T09:00:00.000Z";
     Database.clock_again := "2024-05-01T09:00:00.001Z";
     Database.generated_id := "gh-1" |}.

Definition rename_patch : Database.UserProfileUpdate :=
  {| Database.upd_id := None;
     Database.upd_email := None; Database.upd_name := Some "sensei-2"%string;
     Database.upd_assigned_class := Some "bear"%string;
     Database.upd_created_at := None;
     Database.upd_updated_at := None |}.

Definition bad_record : Database.GenerationHistoryInsert :=
  {| Database.user_id := "u1"; Database.type := "invalid-type";
     Database.input := "in"; Database.output := "out";
     Database.model_used := None; Database.tokens_used := None |}.

End Examples.

(** ** Further requests and callers for the examples *)

Module MoreExamples.

Import Gateway Examples.

(** A session one minute from expiry at second 9990, and a client that
    refreshes it, writing the new access token through the cookie
    handler. *)
Definition expiring : SupabaseAuth :=
  {| auth_getSession := fun _ =>
       Returns {| data_session := Some hanako_session; error := None;
                  cookie_calls := [] |};
     auth_refreshSession := fun _ =>
       Returns {| data_session :=
                    Some {| access_token := "access-2";
                            refresh_token := "refresh-2";
                            expires_at := Some 13600; user := Some hanako |};
                  error := None;
                  cookie_calls := [CallSet "sb-access-token" "access-2" token_options] |} |}.

(** A session whose [expires_at] is 0, and a client that resolves it. *)
Definition undated_session : Session :=
  {| access_token := "access-0"; refresh_token := "refresh-0";
     expires_at := Some 0; user := Some hanako |}.

Definition undated : SupabaseAuth :=
  {| auth_getSession := fun _ =>
       Returns {| data_session := Some undated_session; error := None;
                  cookie_calls := [] |};
     auth_refreshSession := fun _ => Throws "not called" |}.

(** A client that, resolving a session, removes a cookie of the
    request through the cookie handler. *)
Definition pruning : SupabaseAuth :=
  {| auth_getSession := fun _ =>
       Returns {| data_session := Some hanako_session; error := None;
                  cookie_calls :=
                    [CallRemove "sb-refresh-token" removal_options] |};
     auth_refreshSession := fun _ => Throws "not called" |}.

(** A user as the identity service returns it after registration. *)
Definition new_teacher : AuthProvider.SupabaseUser :=
  AuthProvider.mkSupabaseUser "u-yuki" (Some "yuki@hoiku.example"%string)
    None None (Some "bear"%string) None None 1000 None.


Definition yuki_form : AuthProvider.RegisterForm :=
  AuthProvider.mkRegisterForm "yuki@hoiku.example" "Secret123" "Secret123"
    "yuki" (Some "bear"%string).



(** A caller the identity service does not know. *)
Definition signed_out_client : Database.Supabase :=
  {| Database.auth_getUser :=
       Returns {| Database.data_user := None;
                  Database.auth_error := Some "JWT expired"%string |};
     Database.fault := fun _ => None;
     Database.clock := "2024-05-01T09:00:00.000Z";
     Database.clock_again := "2024-05-01T09:00:00.001Z";
     Database.generated_id := "gh-1" |}.

(** A client whose every table request the store answers with the
    error of a cancelled statement. *)
Definition timing_out_client : Database.Supabase :=
  {| Database.auth_getUser :=
       Returns {| Database.data_user := Some (Database.mkAuthUser "u1");
                  Database.auth_error := None |};
     Database.fault := fun _ => Some (Database.ReplyError "57014");
     Database.clock := "2024-05-01T09:00:00.000Z";
     Database.clock_again := "2024-05-01T09:00:00.001Z";
     Database.generated_id := "gh-1" |}.

(** A client whose every table request fails on the network. *)
Definition offline_client : Database.Supabase :=
  {| Database.auth_getUser :=
       Returns {| Database.data_user := Some (Database.mkAuthUser "u1");
                  Database.auth_error := None |};
     Database.fault := fun _ => Some (Database.ClientThrows "fetch failed");
     Database.clock := "2024-05-01T09:00:00.000Z";
     Database.clock_again := "2024-05-01T09:00:00.001Z";
     Database.generated_id := "gh-1" |}.

Definition diary_record : Database.GenerationHistoryInsert :=
  {| Database.user_id := "u1"; Database.type := "diary";
     Database.input := "in"; Database.output := "out";
     Database.model_used := Some "model-a"%string;
     Database.tokens_used := Some 120 |}.


Definition unknown_class_patch : Database.UserProfileUpdate :=
  {| Database.upd_id := None;
     Database.upd_email := None; Database.upd_name := None;
     Database.upd_assigned_class := Some "panda"%string;
     Database.upd_created_at := None;
     Database.upd_updated_at := None |}.


(** A director without assigned class, in a nursery that knows her. *)
Definition director : Database.User :=
  Database.mkUser "u9" "encho@hoiku.example" "encho" None
    "2024-04-01T00:00:00.000Z" "2024-04-01T00:00:00.000Z".

Definition nursery_with_director : Database.World :=
  {| Database.tables :=
       {| Database.users := {[ "u1"%string := sensei; "u9"%string := director ]};
          Database.children := [taro; jiro];
          Database.generation_history := [] |};
     Database.calls := [];
     Database.console := [] |}.

(** A browser whose [localStorage] cannot be used, with one cookie. *)
Definition private_tab : TokenStore.Browser :=
  {| TokenStore.window_defined := true;
     TokenStore.localStorage := None;
     TokenStore.jar := [("theme", "dark")]%string;
     TokenStore.assigned := [];
     TokenStore.warnings := [] |}.

(** A browser with an empty [localStorage] and a token cookie whose value
    holds an equals sign. *)
Definition padded_tab : TokenStore.Browser :=
  {| TokenStore.window_defined := true;
     TokenStore.localStorage := Some ∅;
     TokenStore.jar := [("theme", "dark"); ("sb-access-token", "6162=zz")]%string;
     TokenStore.assigned := [];
     TokenStore.warnings := [] |}.

(** A caller who has no row in the users table. *)
Definition no_profile : Database.Supabase := client_of "u-new".

End MoreExamples.

(** * Properties of the gateway *)

Module GatewayFacts.

Import Gateway Examples.

(** *** Prefixes *)

Lemma prefix_cons_inv (a : ascii) (s1 s2 : string) :
  String.prefix (String a s1) s2 = true ->
  exists s2', s2 = String a s2' /\ String.prefix s1 s2' = true.
Proof.
  destruct s2 as [|b s2']; simpl; [discriminate|].
  destruct (ascii_dec a b) as [->|]; [|discriminate].
  intros H. exists s2'. split; [reflexivity | exact H].
Qed.

(** Two prefixes of one string: one of them is a prefix of the other. *)
Lemma prefix_comparable (a b p : string) :
  String.prefix a p = true -> String.prefix b p = true ->
  String.prefix a b = true \/ String.prefix b a = true.
Proof.
  revert b p. induction a as [|x a IH]; intros b p Ha Hb.
  - left. destruct b; reflexivity.
  - destruct b as [|y b].
    + right. reflexivity.
    + apply prefix_cons_inv in Ha as (p' & -> & Ha).
      apply prefix_cons_inv in Hb as (p'' & Heq & Hb).
      injection Heq as -> ->.
      destruct (IH b p'' Ha Hb) as [H|H]; [left|right]; simpl;
        destruct (ascii_dec _ _); congruence.
Qed.

Lemma prefix_incomparable (a b p : string) :
  String.prefix a b = false -> String.prefix b a = false ->
  String.prefix a p = true -> String.prefix b p = false.
Proof.
  intros Hab Hba Ha. destruct (String.prefix b p) eqn:Hb; [|reflexivity].
  destruct (prefix_comparable a b p Ha Hb); congruence.
Qed.

(** With [H] a prefix of [p] at hand, the tests of [p] against the
    prefixes unrelated to it are decided. *)
Ltac decide_other_prefixes H :=
  match type of H with
  | String.prefix ?a ?p = true =>
      repeat match goal with
             | |- context [String.prefix ?b p] =>
                 rewrite (prefix_incomparable a b p eq_refl eq_refl H)
             end
  end.

Lemma protected_starts (p : string) :
  isProtectedRoute p = true ->
  exists c rest, p = String "/" (String c rest).
Proof.
  unfold isProtectedRoute, protectedRoutes, startsWith. simpl.
  rewrite !orb_true_iff.
  intros [H|[H|[H|[H|H]]]]; try discriminate;
    apply prefix_cons_inv in H as (p1 & -> & H);
    apply prefix_cons_inv in H as (p2 & -> & _); eauto.
Qed.

Lemma protected_not_root (p : string) :
  isProtectedRoute p = true -> truthy p = true /\ String.eqb p "/" = false.
Proof.
  intros H. destruct (protected_starts p H) as (c & rest & ->).
  split; reflexivity.
Qed.

Lemma auth_not_protected (p : string) :
  isAuthRoute p = true -> isProtectedRoute p = false.
Proof.
  unfold isAuthRoute, authRoutes, isProtectedRoute, protectedRoutes,
    startsWith. simpl. rewrite !orb_true_iff.
  intros [H|[H|H]]; try discriminate;
    decide_other_prefixes H; reflexivity.
Qed.

Lemma public_not_protected (p : string) :
  isPublicRoute p = true -> isProtectedRoute p = false.
Proof.
  unfold isPublicRoute, publicRoutes, isProtectedRoute, protectedRoutes,
    startsWith. simpl. rewrite !orb_true_iff.
  intros [H|[H|[H|[H|H]]]]; try discriminate.
  - apply String.eqb_eq in H. subst p. reflexivity.
  - decide_other_prefixes H; reflexivity.
  - decide_other_prefixes H; reflexivity.
  - decide_other_prefixes H; reflexivity.
Qed.

Lemma middleware_static (validate : NextRequest -> Outcome (SessionResult * list Effect))
      (request : NextRequest) :
  isStaticOrApi (pathname (nextUrl request)) = true ->
  middleware validate request = (NextResponse_next, []).
Proof. unfold middleware. intros ->. reflexivity. Qed.

Lemma createRedirect_destination (url : string) (request : NextRequest)
      (d : string) :
  truthy d = true -> String.eqb d "/" = false ->
  createRedirect url request (Some d) =
  NextResponse_redirect
    {| origin := origin (nextUrl request); pathname := url;
       searchParams := [("redirect"%string, d)] |}.
Proof. unfold createRedirect. intros -> ->. reflexivity. Qed.

(** *** Redirect of anonymous callers *)

(** C1.  On a request whose path is protected and is not a static or
    API path, when validation yields no session the gateway answers
    with a redirect to [/login] whose only query parameter is
    [redirect], equal to the requested path; such a path is never the
    root.  In the anonymous case (nothing to clean up) the redirect
    carries no cookie write.  [createRedirect] leaves the parameter out
    when the destination is the root path. *)
Theorem C1_anonymous_protected_redirect
        (validate : NextRequest -> Outcome (SessionResult * list Effect))
        (request : NextRequest) (result : SessionResult)
        (effects : list Effect) :
  let p := pathname (nextUrl request) in
  isStaticOrApi p = false ->
  isProtectedRoute p = true ->
  validate request = Returns (result, effects) ->
  session result = None ->
  let answer := fst (middleware validate request) in
  kind answer =
    Redirect {| origin := origin (nextUrl request); pathname := "/login";
                searchParams := [("redirect"%string, p)] |}
  /\ p <> "/"%string
  /\ (needsCleanup result = false -> cookies answer = [])
  /\ createRedirect "/login" request (Some "/"%string) =
     NextResponse_redirect
       {| origin := origin (nextUrl request); pathname := "/login";
          searchParams := [] |}.
Proof.
  intros p Hstatic Hprot Hval Hnone answer.
  destruct (protected_not_root p Hprot) as [Htruthy Hroot].
  assert (Hanswer :
            answer =
            if needsCleanup result
            then cookies_delete "sb-refresh-token"
                   (cookies_delete "sb-access-token"
                      (createRedirect "/login" request (Some p)))
            else createRedirect "/login" request (Some p)).
  { subst answer. unfold middleware, middleware_try. fold p.
    rewrite Hstatic, Hval, Hnone, Hprot.
    destruct (needsCleanup result); reflexivity. }
  rewrite (createRedirect_destination _ _ p Htruthy Hroot) in Hanswer.
  repeat split.
  - rewrite Hanswer. destruct (needsCleanup result); reflexivity.
  - intros ->. discriminate Hroot.
  - intros Hclean. rewrite Hanswer, Hclean. reflexivity.
Qed.

Lemma C1_anonymous_protected_redirect_witness :
  kind (fst (gateway anonymous 0 (request_for "/diary/2024-04"))) =
    Redirect {| origin := "https://hoiku.example"; pathname := "/login";
                searchParams := [("redirect", "/diary/2024-04")%string] |}.
Proof.
  apply (C1_anonymous_protected_redirect
           (fun r => Returns (getSession anonymous 0 r))
           (request_for "/diary/2024-04")
           (fst (getSession anonymous 0 (request_for "/diary/2024-04")))
           (snd (getSession anonymous 0 (request_for "/diary/2024-04"))));
    reflexivity.
Defined.

(** *** Redirect of authenticated callers away from the auth pages *)

(** An auth route on which the framework runs the middleware is not
    returned early: validation takes place. *)
Lemma matched_auth_route_validated (p : string) :
  matcher p = true -> isAuthRoute p = true -> isStaticOrApi p = false.
Proof.
  intros Hmatch Hauth.
  assert (Hdot : includes p "." = false).
  { destruct p as [|c rest]; [discriminate|]. simpl in Hmatch.
    destruct (ascii_dec c "/") as [->|Hc].
    - apply negb_true_iff in Hmatch.
      rewrite !orb_false_iff in Hmatch. destruct Hmatch as [_ Hmatch].
      simpl. destruct rest; exact Hmatch.
    - exfalso. revert Hmatch.
      destruct c as [[] [] [] [] [] [] [] []]; try discriminate.
      contradiction Hc. reflexivity. }
  unfold isStaticOrApi, startsWith. rewrite Hdot.
  revert Hauth. unfold isAuthRoute, authRoutes, startsWith. simpl.
  rewrite !orb_true_iff.
  intros [H|[H|H]]; try discriminate;
    decide_other_prefixes H; reflexivity.
Qed.

(** C3.  On a request that reaches validation (its path is not a
    static or API path, which holds for every auth route the framework
    runs the middleware on) and whose path starts with [/login] or
    [/register], when validation yields a session the gateway answers
    with a redirect to [/dashboard], without query parameter and without
    cookie write, whatever the rest of the path is. *)
Theorem C3_authenticated_auth_route_redirect
        (validate : NextRequest -> Outcome (SessionResult * list Effect))
        (request : NextRequest) (result : SessionResult)
        (effects : list Effect) (s : Session) :
  isStaticOrApi (pathname (nextUrl request)) = false ->
  isAuthRoute (pathname (nextUrl request)) = true ->
  validate request = Returns (result, effects) ->
  session result = Some s ->
  fst (middleware validate request) =
  NextResponse_redirect
    {| origin := origin (nextUrl request); pathname := "/dashboard";
       searchParams := [] |}.
Proof.
  intros Hstatic Hauth Hval Hsome.
  unfold middleware, middleware_try.
  rewrite Hstatic, Hval, Hsome, (auth_not_protected _ Hauth), Hauth.
  rewrite andb_false_r. reflexivity.
Qed.

Lemma C3_authenticated_auth_route_redirect_witness :
  fst (gateway signed_in 0 (request_for "/login/reset")) =
  NextResponse_redirect
    {| origin := "https://hoiku.example"; pathname := "/dashboard";
       searchParams := [] |}.
Proof.
  apply (C3_authenticated_auth_route_redirect
           (fun r => Returns (getSession signed_in 0 r))
           (request_for "/login/reset")
           (fst (getSession signed_in 0 (request_for "/login/reset")))
           (snd (getSession signed_in 0 (request_for "/login/reset")))
           hanako_session);
    reflexivity.
Defined.

(** *** Errors inside the [try] block *)

(** C4.  When the [try] block of [middleware] is entered and throws,
    the gateway still answers: with the redirect to [/login] that
    carries the requested path as [redirect] when the path is
    protected, and with the pass-through response otherwise; no cookie
    is written in either case. *)
Theorem C4_internal_error_handled
        (validate : NextRequest -> Outcome (SessionResult * list Effect))
        (request : NextRequest) (e : string) :
  let p := pathname (nextUrl request) in
  isStaticOrApi p = false ->
  middleware_try validate request = Throws e ->
  fst (middleware validate request) =
  if isProtectedRoute p
  then NextResponse_redirect
         {| origin := origin (nextUrl request); pathname := "/login";
            searchParams := [("redirect"%string, p)] |}
  else NextResponse_next.
Proof.
  intros p Hstatic Hthrow.
  unfold middleware, middleware_catch. fold p.
  rewrite Hstatic, Hthrow.
  destruct (isProtectedRoute p) eqn:Hprot; [|reflexivity].
  destruct (protected_not_root p Hprot) as [Htruthy Hroot].
  simpl. apply createRedirect_destination; assumption.
Qed.

Lemma C4_internal_error_handled_witness :
  fst (middleware failing_validation (request_for "/records/12")) =
    NextResponse_redirect
      {| origin := "https://hoiku.example"; pathname := "/login";
         searchParams := [("redirect", "/records/12")%string] |}
  /\ fst (middleware failing_validation (request_for "/about")) =
     NextResponse_next.
Proof.
  split.
  - apply (C4_internal_error_handled failing_validation
             (request_for "/records/12") "fetch failed"); reflexivity.
  - apply (C4_internal_error_handled failing_validation
             (request_for "/about") "fetch failed"); reflexivity.
Defined.

(** *** Validation without refresh *)

(** A session whose expiry is at least 300 seconds ahead is not due
    for a refresh. *)
Lemma expiresSoon_false (s : Session) (now : Z) :
  (forall e, expires_at s = Some e -> now + 300 <= e) ->
  expiresSoon s now = false.
Proof.
  intros H. unfold expiresSoon, expirationBuffer.
  destruct (expires_at s) as [e|]; [|reflexivity].
  specialize (H e eq_refl).
  replace (e <? now + 5 * 60) with false by (symmetry; apply Z.ltb_ge; lia).
  apply andb_false_r.
Qed.

Lemma getSession_no_refresh (supabase : SupabaseAuth) (date_now : Z)
      (request : NextRequest) (reply : AuthReply) (s : Session) :
  auth_getSession supabase (req_cookies request) = Returns reply ->
  error reply = None ->
  data_session reply = Some s ->
  expiresSoon s (date_now / 1000) = false ->
  getSession supabase date_now request =
  match user s with
  | Some _ =>
      ({| session := Some s;
          response := with_cookie_calls (cookie_calls reply) NextResponse_next;
          needsCleanup := false |},
       [AuthGetSession])
  | None =>
      ({| session := None;
          response := with_cookie_calls (cookie_calls reply) NextResponse_next;
          needsCleanup := true |},
       [AuthGetSession;
        ConsoleError "Middleware: Session exists but no user found"])
  end.
Proof.
  intros Hget Herr Hdata Hsoon. unfold getSession.
  rewrite Hget, Herr, Hdata, Hsoon. destruct (user s); reflexivity.
Qed.

(** C5.  A session whose [expires_at] is at least 300 seconds after the
    current time is validated without a call to [refreshSession].  Two
    validations of the same request, at two times that both leave 300
    seconds or more, give the same result, and neither of them calls
    [refreshSession].  When the session carries a user, both return that
    session as it is, hence the same user id, with nothing to clean up. *)
Theorem C5_validation_idempotent_without_refresh
        (supabase : SupabaseAuth) (request : NextRequest)
        (reply : AuthReply) (s : Session) (first second : Z) :
  auth_getSession supabase (req_cookies request) = Returns reply ->
  error reply = None ->
  data_session reply = Some s ->
  (forall e, expires_at s = Some e -> first / 1000 + 300 <= e) ->
  (forall e, expires_at s = Some e -> second / 1000 + 300 <= e) ->
  let v1 := getSession supabase first request in
  let v2 := getSession supabase second request in
  ~ In AuthRefreshSession (snd v1)
  /\ ~ In AuthRefreshSession (snd v2)
  /\ v1 = v2
  /\ (forall u, user s = Some u ->
      session (fst v1) = Some s
      /\ session (fst v2) = Some s
      /\ user_id <$> (session (fst v1) ≫= user) = Some (user_id u)
      /\ user_id <$> (session (fst v2) ≫= user) = Some (user_id u)
      /\ needsCleanup (fst v1) = false
      /\ needsCleanup (fst v2) = false).
Proof.
  intros Hget Herr Hdata H1 H2 v1 v2.
  assert (E1 := getSession_no_refresh supabase first request reply s
                  Hget Herr Hdata (expiresSoon_false _ _ H1)).
  assert (E2 := getSession_no_refresh supabase second request reply s
                  Hget Herr Hdata (expiresSoon_false _ _ H2)).
  subst v1 v2. rewrite E1, E2.
  destruct (user s) as [u0|] eqn:Huser; simpl.
  - repeat split; try (intros [H|[]]; discriminate H);
      injection H as <-; try rewrite Huser; reflexivity.
  - repeat split; try (intros [H|[H|[]]]; discriminate H); discriminate.
Qed.

Lemma C5_validation_idempotent_without_refresh_witness :
  session (fst (getSession signed_in 9000000 (request_for "/dashboard"))) =
    Some hanako_session
  /\ getSession signed_in 9000000 (request_for "/dashboard") =
     getSession signed_in 9700000 (request_for "/dashboard")
  /\ ~ In AuthRefreshSession
         (snd (getSession signed_in 9700000 (request_for "/dashboard"))).
Proof.
  pose proof (C5_validation_idempotent_without_refresh signed_in
                (request_for "/dashboard")
                {| data_session := Some hanako_session; error := None;
                   cookie_calls := [] |}
                hanako_session 9000000 9700000
                eq_refl eq_refl eq_refl) as H.
  simpl in H.
  assert (H1 : forall e : Z, Some 10000 = Some e -> 9000000 / 1000 + 300 <= e).
  { intros e [= <-]. vm_compute. discriminate. }
  assert (H2 : forall e : Z, Some 10000 = Some e -> 9700000 / 1000 + 300 <= e).
  { intros e [= <-]. vm_compute. discriminate. }
  destruct (H H1 H2) as (_ & A & B & C).
  destruct (C hanako eq_refl) as (D & _).
  repeat split; assumption.
Defined.

(** The same session one second later is within the window, and the
    validation refreshes it. *)
Example refresh_inside_window :
  In AuthRefreshSession
     (snd (getSession signed_in 9701000 (request_for "/dashboard"))).
Proof. vm_compute. tauto. Qed.

(** *** Invalid sessions on public and auth routes *)

(** C6, as stated, fails in the anonymous case: on the root path, for a
    request that carries both token cookies while validation finds no
    session, the gateway passes the request through and deletes no
    cookie, so the browser keeps both. *)
Lemma C6_counterexample :
  let request := stale_request "/" in
  let answer := fst (gateway anonymous 0 request) in
  isPublicRoute "/" = true
  /\ session (fst (getSession anonymous 0 request)) = None
  /\ answer = NextResponse_next
  /\ ~ clearsTokens answer
  /\ jar_after 0 request answer !! "sb-access-token"%string
     = Some "stale-access"%string
  /\ jar_after 0 request answer !! "sb-refresh-token"%string
     = Some "stale-refresh"%string.
Proof.
  repeat split. intros [H _]. vm_compute in H. exact H.
Qed.

(** C6, amended.  On a request that reaches validation and whose path
    is public or an auth route, when validation yields no session the
    gateway passes the request through, never redirects; it deletes both
    token cookies except in the anonymous case (the client answered with
    neither a session nor an error), where it writes no cookie. *)
Theorem C6_invalid_session_public_route
        (supabase : SupabaseAuth) (date_now : Z) (request : NextRequest) :
  let p := pathname (nextUrl request) in
  isStaticOrApi p = false ->
  isPublicRoute p = true \/ isAuthRoute p = true ->
  session (fst (getSession supabase date_now request)) = None ->
  let answer := fst (gateway supabase date_now request) in
  kind answer = Next
  /\ cookies answer =
     (if isNoSession supabase request then []
      else [CookieDelete "sb-access-token"; CookieDelete "sb-refresh-token"])
  /\ (isNoSession supabase request = false -> clearsTokens answer).
Proof.
  intros p Hstatic Hclass Hnone answer.
  assert (Hprot : isProtectedRoute p = false).
  { destruct Hclass as [H|H];
      [apply public_not_protected | apply auth_not_protected]; exact H. }
  assert (Hclean : needsCleanup (fst (getSession supabase date_now request))
                   = negb (isNoSession supabase request)).
  { revert Hnone. unfold getSession, isNoSession, getSession_caught.
    destruct (auth_getSession supabase (req_cookies request)) as [reply|];
      [|reflexivity].
    destruct (error reply); [reflexivity|].
    destruct (data_session reply) as [sess|]; [|reflexivity].
    destruct (expiresSoon sess (date_now / 1000)).
    - destruct (auth_refreshSession supabase (req_cookies request))
        as [refreshData|]; [|reflexivity].
      destruct (error refreshData), (data_session refreshData);
        try reflexivity; discriminate.
    - destruct (user sess); [discriminate | reflexivity]. }
  assert (Hanswer :
            answer =
            if isNoSession supabase request then NextResponse_next
            else cookies_delete "sb-refresh-token"
                   (cookies_delete "sb-access-token" NextResponse_next)).
  { subst answer. unfold gateway, middleware, middleware_try. fold p.
    rewrite Hstatic.
    destruct (getSession supabase date_now request) as [result effects].
    simpl in Hnone, Hclean. rewrite Hnone, Hclean, Hprot.
    destruct (isNoSession supabase request); simpl.
    - rewrite andb_false_r. destruct (isPublicRoute p); reflexivity.
    - reflexivity. }
  rewrite Hanswer.
  destruct (isNoSession supabase request).
  - split; [reflexivity|]. split; [reflexivity|]. discriminate.
  - split; [reflexivity|]. split; [reflexivity|].
    intros _. unfold clearsTokens. simpl. auto.
Qed.

Lemma C6_invalid_session_public_route_witness :
  let request := stale_request "/register" in
  let answer := fst (gateway service_down 0 request) in
  kind answer = Next
  /\ clearsTokens answer
  /\ jar_after 0 request answer = ∅.
Proof.
  intros request answer.
  destruct (C6_invalid_session_public_route service_down 0 request)
    as (A & _ & B); [reflexivity | right; reflexivity | reflexivity |].
  split; [exact A|]. split; [apply B; reflexivity|].
  vm_compute. reflexivity.
Defined.

End GatewayFacts.

(** * Properties of the session context *)

Module AuthContextFacts.

Import AuthContext Examples.





End AuthContextFacts.

(** * Properties of the data-access layer *)

Module DatabaseFacts.

Import Database Examples.

Lemma getCurrentUser_authenticated (sb : Supabase) (caller : AuthUser)
      (w : World) :
  authenticatedAs sb caller ->
  getCurrentUser sb w = (Ok (Some caller), record_call AuthGetUser w).
Proof. unfold getCurrentUser. intros ->. reflexivity. Qed.

Lemma getUserProfile_answer (sb : Supabase) (caller : AuthUser)
      (userId : string) (w : World) :
  truthy userId = true ->
  authenticatedAs sb caller ->
  fault sb (UsersSelectSingle userId) = None ->
  getUserProfile sb userId w =
  (Ok (users (tables w) !! userId),
   record_call (UsersSelectSingle userId) (record_call AuthGetUser w)).
Proof.
  intros Hid Hauth Hfault.
  unfold getUserProfile, try_catch, bind. rewrite Hid. simpl.
  rewrite (getCurrentUser_authenticated sb caller w Hauth).
  unfold users_select_single, request. rewrite Hfault. simpl.
  destruct (users (tables w) !! userId); reflexivity.
Qed.

(** *** Profiles *)

(** A failure of the service is not a missing row: an error reply
    with another code than [PGRST116] is thrown as a [DatabaseError] that
    carries the code. *)
Lemma getUserProfile_storage_failure
      (sb : Supabase) (caller : AuthUser) (userId code : string) (w : World) :
  truthy userId = true ->
  authenticatedAs sb caller ->
  fault sb (UsersSelectSingle userId) = Some (ReplyError code) ->
  String.eqb code "PGRST116" = false ->
  getUserProfile sb userId w =
  (Throw (DatabaseError "ユーザープロファイルの取得に失敗しました" (Some code)),
   record_call (UsersSelectSingle userId) (record_call AuthGetUser w)).
Proof.
  intros Hid Hauth Hfault Hcode.
  unfold getUserProfile, try_catch, bind. rewrite Hid. simpl.
  rewrite (getCurrentUser_authenticated sb caller w Hauth).
  unfold users_select_single, request. rewrite Hfault. simpl.
  rewrite Hcode. reflexivity.
Qed.

(** And so is a request on which the client throws: the error is
    logged and replaced by a [DatabaseError] without code. *)
Lemma getUserProfile_client_throws
      (sb : Supabase) (caller : AuthUser) (userId m : string) (w : World) :
  truthy userId = true ->
  authenticatedAs sb caller ->
  fault sb (UsersSelectSingle userId) = Some (ClientThrows m) ->
  getUserProfile sb userId w =
  (Throw (DatabaseError
            "ユーザープロファイルの取得中に予期しないエラーが発生しました" None),
   console_error "getUserProfile error:"
     (record_call (UsersSelectSingle userId) (record_call AuthGetUser w))).
Proof.
  intros Hid Hauth Hfault.
  unfold getUserProfile, try_catch, bind. rewrite Hid. simpl.
  rewrite (getCurrentUser_authenticated sb caller w Hauth).
  unfold users_select_single, request. rewrite Hfault. reflexivity.
Qed.

(** C10.  For an authenticated caller and a non-empty id: when the id
    has no row in the users table and the service answers,
    [getUserProfile] returns null, throws nothing and leaves the tables
    as they are.  This result is distinct from the other two: an empty
    id is rejected with a [DatabaseError] before any request is sent;
    and a failure of the storage is thrown, as a [DatabaseError] that
    carries the code of the error reply (any code but [PGRST116], the
    code of the missing row), or as a [DatabaseError] without code when
    the client throws. *)
Theorem C10_getUserProfile_missing_row
        (sb : Supabase) (caller : AuthUser) (userId : string) (w : World) :
  truthy userId = true ->
  authenticatedAs sb caller ->
  let sent := record_call (UsersSelectSingle userId)
                (record_call AuthGetUser w) in
  (fault sb (UsersSelectSingle userId) = None ->
   users (tables w) !! userId = None ->
   getUserProfile sb userId w = (Ok None, sent)
   /\ tables (snd (getUserProfile sb userId w)) = tables w)
  /\ getUserProfile sb "" w =
     (Throw (DatabaseError "有効なユーザーIDが必要です" None), w)
  /\ (forall code,
      fault sb (UsersSelectSingle userId) = Some (ReplyError code) ->
      code <> "PGRST116"%string ->
      getUserProfile sb userId w =
      (Throw (DatabaseError "ユーザープロファイルの取得に失敗しました"
                            (Some code)), sent))
  /\ (forall m,
      fault sb (UsersSelectSingle userId) = Some (ClientThrows m) ->
      getUserProfile sb userId w =
      (Throw (DatabaseError
                "ユーザープロファイルの取得中に予期しないエラーが発生しました"
                None),
       console_error "getUserProfile error:" sent)).
Proof.
  intros Hid Hauth sent. split; [|split; [|split]].
  - intros Hfault Hrow.
    rewrite (getUserProfile_answer sb caller userId w Hid Hauth Hfault), Hrow.
    split; reflexivity.
  - reflexivity.
  - intros code Hfault Hcode. apply String.eqb_neq in Hcode.
    exact (getUserProfile_storage_failure sb caller userId code w
             Hid Hauth Hfault Hcode).
  - intros m Hfault.
    exact (getUserProfile_client_throws sb caller userId m w Hid Hauth Hfault).
Qed.

Lemma C10_getUserProfile_missing_row_witness :
  fst (getUserProfile (client_of "u1") "u-unknown" nursery) = Ok None
  /\ fst (getUserProfile MoreExamples.timing_out_client "u-unknown" nursery) =
     Throw (DatabaseError "ユーザープロファイルの取得に失敗しました"
                          (Some "57014"%string)).
Proof.
  split.
  - destruct (C10_getUserProfile_missing_row (client_of "u1")
                (mkAuthUser "u1") "u-unknown" nursery) as (H & _);
      [reflexivity | reflexivity |].
    destruct H as [H _]; [reflexivity | reflexivity |].
    rewrite H. reflexivity.
  - destruct (C10_getUserProfile_missing_row MoreExamples.timing_out_client
                (mkAuthUser "u1") "u-unknown" nursery) as (_ & _ & H & _);
      [reflexivity | reflexivity |].
    rewrite (H "57014"%string); [reflexivity | reflexivity | discriminate].
Defined.

Lemma valid_class_accepted (updates : UserProfileUpdate) :
  (forall c, upd_assigned_class updates = Some c -> In c validClasses) ->
  assigned_class_accepted updates = true.
Proof.
  unfold assigned_class_accepted. intros H.
  destruct (upd_assigned_class updates) as [c|]; [|reflexivity].
  destruct (truthy c); [|reflexivity].
  apply existsb_exists. exists c. split; [auto | apply String.eqb_refl].
Qed.

(** C9.  For a non-empty target id and a patch with at least one key:
    when the authenticated caller's id is the target id and the patch
    passes the class check, the update is sent and, the row being there
    and the service answering, the call returns the updated row and the
    table holds it (under its key, which is the target id unless the
    patch carries an [id]; the table refuses the [id] of another row,
    and the call then throws a [DatabaseError] with the code of the
    refusal and the tables are as they were); when the caller's id is
    another one, the call throws a [PermissionError], the only request
    sent is the one that asks who the caller is, and the tables are as
    they were. *)
Theorem C9_updateUserProfile_self_only
        (sb : Supabase) (caller : AuthUser) (userId : string)
        (updates : UserProfileUpdate) (w : World) :
  truthy userId = true ->
  keys_length updates <> 0%nat ->
  authenticatedAs sb caller ->
  let values :=
    {| upd_id := upd_id updates;
       upd_email := upd_email updates; upd_name := upd_name updates;
       upd_assigned_class := upd_assigned_class updates;
       upd_created_at := upd_created_at updates;
       upd_updated_at := Some (clock sb) |} in
  let key := key_after userId updates in
  (auth_id caller = userId ->
   assigned_class_accepted updates = true ->
   fault sb (UsersUpdateSingle userId values) = None ->
   forall row, users (tables w) !! userId = Some row ->
     updateUserProfile sb userId (Some updates) w =
     if key_free userId key (users (tables w))
     then
       (Ok (apply_update values row),
        {| tables :=
             {| users := <[key := apply_update values row]>
                           (delete userId (users (tables w)));
                children := children (tables w);
                generation_history := generation_history (tables w) |};
           calls := calls w ++ [AuthGetUser] ++ [UsersUpdateSingle userId values];
           console := console w |})
     else
       (Throw (DatabaseError "ユーザープロファイルの更新に失敗しました"
                             (Some "23505"%string)),
        {| tables := tables w;
           calls := calls w ++ [AuthGetUser] ++ [UsersUpdateSingle userId values];
           console := console w |}))
  /\
  (upd_id updates = None ->
   key_free userId key (users (tables w)) = true
   /\ forall row : User,
        <[key := row]> (delete userId (users (tables w))) =
        <[userId := row]> (users (tables w)))
  /\
  (auth_id caller <> userId ->
   updateUserProfile sb userId (Some updates) w =
     (Throw (PermissionError
               "他のユーザーのプロファイルを更新する権限がありません"),
      record_call AuthGetUser w)
   /\ tables (snd (updateUserProfile sb userId (Some updates) w)) = tables w
   /\ existsb writesTable
        (calls (snd (updateUserProfile sb userId (Some updates) w)))
      = existsb writesTable (calls w)).
Proof.
  intros Hid Hkeys Hauth values key.
  assert (Hk : Nat.eqb (keys_length updates) 0 = false)
    by (apply Nat.eqb_neq; exact Hkeys).
  split; [|split].
  - intros Hsame Hclass Hfault row Hrow.
    unfold updateUserProfile, try_catch, bind. rewrite Hid, Hk. simpl.
    rewrite (getCurrentUser_authenticated sb caller w Hauth).
    rewrite Hsame, String.eqb_refl, Hclass. simpl.
    unfold users_update_single, request. fold values.
    rewrite Hfault. simpl. rewrite Hrow.
    change (key_after userId values) with key.
    destruct (key_free userId key (users (tables w))); simpl.
    + unfold set_tables. simpl. rewrite <- app_assoc. reflexivity.
    + unfold set_tables. simpl. rewrite <- app_assoc. reflexivity.
  - intros Hnone. subst key. unfold key_after, key_free. rewrite Hnone. simpl.
    split.
    + rewrite bool_decide_eq_true_2 by reflexivity. reflexivity.
    + intros row. apply insert_delete_eq.
  - intros Hother.
    assert (E : updateUserProfile sb userId (Some updates) w =
                (Throw (PermissionError
                          "他のユーザーのプロファイルを更新する権限がありません"),
                 record_call AuthGetUser w)).
    { unfold updateUserProfile, try_catch, bind. rewrite Hid, Hk. simpl.
      rewrite (getCurrentUser_authenticated sb caller w Hauth).
      apply String.eqb_neq in Hother. rewrite Hother. reflexivity. }
    rewrite E. split; [reflexivity|]. split; [reflexivity|].
    simpl. rewrite existsb_app. simpl. rewrite !orb_false_r. reflexivity.
Qed.

Lemma C9_updateUserProfile_self_only_witness :
  fst (updateUserProfile (client_of "u1") "u1" (Some rename_patch) nursery) =
    Ok (mkUser "u1" "sensei@hoiku.example" "sensei-2" (Some "bear"%string)
          "2024-04-01T00:00:00.000Z" "2024-05-01T09:00:00.000Z")
  /\ updateUserProfile (client_of "u2") "u1" (Some rename_patch) nursery =
     (Throw (PermissionError
               "他のユーザーのプロファイルを更新する権限がありません"),
      record_call AuthGetUser nursery).
Proof.
  split.
  - destruct (C9_updateUserProfile_self_only (client_of "u1")
                (mkAuthUser "u1") "u1" rename_patch nursery)
      as [H _]; [reflexivity | discriminate | reflexivity |].
    rewrite (H eq_refl eq_refl eq_refl sensei eq_refl). reflexivity.
  - destruct (C9_updateUserProfile_self_only (client_of "u2")
                (mkAuthUser "u2") "u1" rename_patch nursery)
      as (_ & _ & H); [reflexivity | discriminate | reflexivity |].
    apply H. discriminate.
Defined.

(** *** Generation history *)

(** C8.  For every record whose [type] is none of [email], [diary],
    [record], [saveGenerationHistory] throws a [DatabaseError] without a
    code, with the message of a missing field or that of an invalid
    type, and the world is exactly as before: no request of any kind was
    sent and no row was added. *)
Theorem C8_saveGenerationHistory_invalid_type
        (sb : Supabase) (data : GenerationHistoryInsert) (w : World) :
  ~ In (type data) validTypes ->
  exists message,
    saveGenerationHistory sb (Some data) w =
      (Throw (DatabaseError message None), w)
    /\ (message =
          "必須フィールドが不足しています: user_id, type, input, output"%string
        \/ message =
          "無効な生成タイプです。有効な値: email, diary, record"%string).
Proof.
  intros Htype.
  assert (Hmem : existsb (String.eqb (type data)) validTypes = false).
  { destruct (existsb (String.eqb (type data)) validTypes) eqn:E;
      [|reflexivity].
    apply existsb_exists in E as (t & Hin & Heq).
    apply String.eqb_eq in Heq. subst t. contradiction. }
  unfold saveGenerationHistory, try_catch.
  destruct (negb (truthy (user_id data)) || negb (truthy (type data)) ||
            negb (truthy (input data)) || negb (truthy (output data)))
    eqn:Hmissing.
  - eexists. split; [reflexivity | left; reflexivity].
  - rewrite Hmem. eexists. split; [reflexivity | right; reflexivity].
Qed.

Lemma C8_saveGenerationHistory_invalid_type_witness :
  exists message,
    saveGenerationHistory (client_of "u1") (Some bad_record) nursery =
    (Throw (DatabaseError message None), nursery).
Proof.
  destruct (C8_saveGenerationHistory_invalid_type (client_of "u1")
              bad_record nursery) as (message & H & _).
  - simpl. intros [H|[H|[H|[]]]]; discriminate H.
  - exists message. exact H.
Defined.

Example saveGenerationHistory_invalid_type :
  saveGenerationHistory (client_of "u1") (Some bad_record) nursery =
  (Throw (DatabaseError
            "無効な生成タイプです。有効な値: email, diary, record" None),
   nursery).
Proof. reflexivity. Qed.

(** A record of a valid type, saved by its owner, is inserted. *)
Example saveGenerationHistory_valid :
  let data := mkGenerationHistoryInsert "u1" "diary" "in" "out" None None in
  fst (saveGenerationHistory (client_of "u1") (Some data) nursery) =
  Ok (mkGenerationHistory "gh-1" "u1" "diary" "in" "out" None None
        "2024-05-01T09:00:00.000Z" "2024-05-01T09:00:00.001Z").
Proof. reflexivity. Qed.

(** *** Children *)

(** C7, as stated, fails for the empty string: a teacher of the koala
    class who calls [getChildren("")] gets no error; the query is sent
    with the caller's own class in place of the argument, and the koala
    children come back. *)
Lemma C7_counterexample :
  let run := getChildren (client_of "u1") (Some ""%string) nursery in
  assigned_class sensei = Some "koala"%string
  /\ fst run = Ok [taro]
  /\ existsb readsChildren (calls (snd run)) = true
  /\ In (ChildrenSelect {| eq_class_id := Some "koala"%string;
                           order_name := true |}) (calls (snd run)).
Proof. vm_compute. repeat split. right. right. right. left. reflexivity. Qed.

(** C7, amended.  For an authenticated caller whose profile has a
    non-empty [assigned_class], [getChildren] with a non-empty [classId]
    different from that class throws a [PermissionError]; the requests
    sent are the two that ask who the caller is and the read of the
    caller's profile, none goes to the children table, and the tables
    are as they were. *)
Theorem C7_getChildren_other_class
        (sb : Supabase) (caller : AuthUser) (profile : User)
        (own classId : string) (w : World) :
  authenticatedAs sb caller ->
  truthy (auth_id caller) = true ->
  fault sb (UsersSelectSingle (auth_id caller)) = None ->
  users (tables w) !! auth_id caller = Some profile ->
  assigned_class profile = Some own ->
  truthy own = true ->
  truthy classId = true ->
  classId <> own ->
  let after :=
    record_call (UsersSelectSingle (auth_id caller))
      (record_call AuthGetUser (record_call AuthGetUser w)) in
  getChildren sb (Some classId) w =
    (Throw (PermissionError
              "指定されたクラスにアクセスする権限がありません"), after)
  /\ tables after = tables w
  /\ existsb readsChildren (calls after) = existsb readsChildren (calls w).
Proof.
  intros Hauth Hid Hfault Hrow Hown Htruthy Hclass Hneq after.
  split; [|split].
  - unfold getChildren, try_catch, bind.
    rewrite (getCurrentUser_authenticated sb caller w Hauth).
    rewrite (getUserProfile_answer sb caller _ _ Hid Hauth Hfault).
    simpl. rewrite Hrow, Hown. simpl. rewrite Hclass, Htruthy. simpl.
    rewrite bool_decide_eq_false_2 by congruence.
    reflexivity.
  - reflexivity.
  - subst after. simpl. rewrite !existsb_app. simpl.
    rewrite !orb_false_r. reflexivity.
Qed.

Lemma C7_getChildren_other_class_witness :
  fst (getChildren (client_of "u1") (Some "bear"%string) nursery) =
  Throw (PermissionError "指定されたクラスにアクセスする権限がありません").
Proof.
  destruct (C7_getChildren_other_class (client_of "u1") (mkAuthUser "u1")
              sensei "koala" "bear" nursery) as (H & _);
    [reflexivity | reflexivity | reflexivity | reflexivity | reflexivity
    | reflexivity | reflexivity | discriminate |].
  rewrite H. reflexivity.
Defined.

End DatabaseFacts.

(** * Further properties of the gateway *)

Module GatewayMore.

Import Gateway Examples MoreExamples GatewayFacts.

(** *** The route tables *)

(** Every auth route is a public route and no protected route; no
    protected route is public or an auth route. *)
Theorem route_classes (p : string) :
  (isAuthRoute p = true ->
   isPublicRoute p = true /\ isProtectedRoute p = false)
  /\ (isProtectedRoute p = true ->
      isPublicRoute p = false /\ isAuthRoute p = false).
Proof.
  split.
  - intros Hauth. split; [|apply auth_not_protected; exact Hauth].
    revert Hauth.
    unfold isAuthRoute, authRoutes, isPublicRoute, publicRoutes, startsWith.
    simpl. rewrite !orb_true_iff. intros [H|[H|H]]; try discriminate; auto.
  - intros Hprot. split.
    + destruct (isPublicRoute p) eqn:Hpub; [|reflexivity].
      rewrite (public_not_protected p Hpub) in Hprot. discriminate.
    + destruct (isAuthRoute p) eqn:Hauth; [|reflexivity].
      rewrite (auth_not_protected p Hauth) in Hprot. discriminate.
Qed.

Lemma route_classes_witness :
  isPublicRoute "/register/done" = true
  /\ isProtectedRoute "/register/done" = false
  /\ isPublicRoute "/records/7" = false
  /\ isAuthRoute "/records/7" = false.
Proof.
  destruct (route_classes "/register/done") as [A _].
  destruct (route_classes "/records/7") as [_ B].
  destruct (A eq_refl) as [A1 A2]. destruct (B eq_refl) as [B1 B2].
  repeat split; assumption.
Defined.

(** *** What [getSession] returns *)

Lemma getSession_response_next (supabase : SupabaseAuth) (date_now : Z)
      (request : NextRequest) :
  kind (response (fst (getSession supabase date_now request))) = Next.
Proof.
  unfold getSession, getSession_caught.
  destruct (auth_getSession supabase (req_cookies request)) as [reply|];
    [|reflexivity].
  destruct (error reply); [reflexivity|].
  destruct (data_session reply) as [sess|]; [|reflexivity].
  destruct (expiresSoon sess (date_now / 1000)).
  - destruct (auth_refreshSession supabase (req_cookies request))
      as [refreshData|]; [|reflexivity].
    destruct (error refreshData), (data_session refreshData); reflexivity.
  - destruct (user sess); reflexivity.
Qed.

Lemma getSession_writes_only_sets (supabase : SupabaseAuth) (date_now : Z)
      (request : NextRequest) (name : string) :
  ~ In (CookieDelete name)
       (cookies (response (fst (getSession supabase date_now request)))).
Proof.
  assert (Hmap : forall calls, ~ In (CookieDelete name)
                                    (map handle_cookie_call calls)).
  { intros calls Hin. apply in_map_iff in Hin as (c & Hc & _).
    destruct c; discriminate. }
  unfold getSession, getSession_caught.
  destruct (auth_getSession supabase (req_cookies request)) as [reply|];
    [|intros []].
  destruct (error reply); [apply Hmap|].
  destruct (data_session reply) as [sess|]; [|apply Hmap].
  destruct (expiresSoon sess (date_now / 1000)).
  - destruct (auth_refreshSession supabase (req_cookies request))
      as [refreshData|]; [|intros []].
    destruct (error refreshData), (data_session refreshData); simpl;
      rewrite in_app_iff; intros [H|H]; eapply Hmap; eauto.
  - destruct (user sess); apply Hmap.
Qed.

(** The cases of [getSession] that end without a session. *)
Ltac no_session finish :=
  split; [intros; reflexivity|];
  split; [discriminate|];
  split; [discriminate|];
  finish.

(** For every client, time and request: [getSession] never asks for a
    cleanup together with a session.  A session it returns without having
    called [refreshSession] is the one the client resolved, carries a
    user, and either has no [expires_at] (absent, or 0) or expires 300
    seconds or more after the current second; a session it returns after
    the call is the one [refreshSession] answered with, without error.
    The test on [expires_at] is skipped for a session without one: such a
    session that carries a user is returned as it is at every time, with
    no refresh. *)
Theorem getSession_result_shape (supabase : SupabaseAuth) (date_now : Z)
        (request : NextRequest) :
  let result := fst (getSession supabase date_now request) in
  let effects := snd (getSession supabase date_now request) in
  (needsCleanup result = true -> session result = None)
  /\ (forall s, session result = Some s ->
      ~ In AuthRefreshSession effects ->
      (expires_at s = None \/ expires_at s = Some 0
       \/ exists e, expires_at s = Some e /\ date_now / 1000 + 300 <= e)
      /\ is_Some (user s)
      /\ exists reply, auth_getSession supabase (req_cookies request)
                       = Returns reply
                       /\ data_session reply = Some s)
  /\ (forall s, session result = Some s ->
      In AuthRefreshSession effects ->
      exists refreshData,
        auth_refreshSession supabase (req_cookies request) = Returns refreshData
        /\ error refreshData = None
        /\ data_session refreshData = Some s)
  /\ (forall reply s,
      auth_getSession supabase (req_cookies request) = Returns reply ->
      error reply = None ->
      data_session reply = Some s ->
      expires_at s = None \/ expires_at s = Some 0 ->
      is_Some (user s) ->
      session result = Some s /\ effects = [AuthGetSession]).
Proof.
  assert (Hwindow : forall (s : Session) (now : Z),
             expiresSoon s now = false ->
             expires_at s = None \/ expires_at s = Some 0
             \/ exists e, expires_at s = Some e /\ now + 300 <= e).
  { intros s now. unfold expiresSoon, truthy_num, expirationBuffer.
    destruct (expires_at s) as [e|]; [|auto].
    destruct (Z.eqb_spec e 0) as [->|Hne]; [auto|]. simpl.
    intros H. apply Z.ltb_ge in H. right. right. exists e. split; [reflexivity|lia]. }
  assert (Hnone : forall (s : Session) (now : Z),
             expires_at s = None \/ expires_at s = Some 0 ->
             expiresSoon s now = false).
  { intros s now [H|H]; unfold expiresSoon; rewrite H; reflexivity. }
  unfold getSession, getSession_caught.
  destruct (auth_getSession supabase (req_cookies request)) as [reply|] eqn:Hget;
    [|simpl; no_session discriminate].
  destruct (error reply) as [failure|] eqn:Herror;
    [simpl; no_session ltac:(intros reply' s [= <-]; congruence)|].
  destruct (data_session reply) as [sess|] eqn:Hdata;
    [|simpl; no_session ltac:(intros reply' s [= <-]; congruence)].
  destruct (expiresSoon sess (date_now / 1000)) eqn:Hsoon.
  - assert (Hlast : forall reply' s,
               Returns reply = Returns reply' ->
               error reply' = None -> data_session reply' = Some s ->
               expires_at s = None \/ expires_at s = Some 0 -> False).
    { intros reply' s [= <-] _ Hs Hexp. rewrite Hdata in Hs.
      injection Hs as <-. rewrite (Hnone sess _ Hexp) in Hsoon. discriminate. }
    destruct (auth_refreshSession supabase (req_cookies request))
      as [refreshData|] eqn:Hrefresh;
      [|simpl; no_session
                 ltac:(intros reply' s E1 E2 E3 E4;
                       destruct (Hlast reply' s E1 E2 E3 E4))].
    destruct (error refreshData) as [failure|] eqn:Herr;
      [simpl; no_session
                ltac:(intros reply' s E1 E2 E3 E4;
                      destruct (Hlast reply' s E1 E2 E3 E4))|].
    destruct (data_session refreshData) as [refreshed|] eqn:Hnew;
      [|simpl; no_session
                 ltac:(intros reply' s E1 E2 E3 E4;
                       destruct (Hlast reply' s E1 E2 E3 E4))].
    simpl. split; [discriminate|]. split; [|split].
    + intros s _ Hno. exfalso. apply Hno. auto.
    + intros s [= <-] _. exists refreshData. auto.
    + intros reply' s E1 E2 E3 E4. destruct (Hlast reply' s E1 E2 E3 E4).
  - destruct (user sess) as [u|] eqn:Huser.
    + simpl. split; [discriminate|]. split; [|split].
      * intros s [= <-] _. split; [apply Hwindow; exact Hsoon|].
        split; [rewrite Huser; eauto|]. exists reply. auto.
      * intros s _ [H|[]]. discriminate H.
      * intros reply' s [= <-] _ Hs _ _. rewrite Hdata in Hs.
        injection Hs as <-. split; reflexivity.
    + simpl.
      no_session ltac:(intros reply' s [= <-] _ Hs _ [u Hu];
                       rewrite Hdata in Hs; injection Hs as <-;
                       rewrite Huser in Hu; discriminate).
Qed.

Lemma getSession_result_shape_witness :
  (exists refreshData,
      auth_refreshSession expiring (req_cookies (request_for "/diary"))
      = Returns refreshData
      /\ data_session refreshData
         = session (fst (getSession expiring 9990000 (request_for "/diary"))))
  /\ session (fst (getSession undated 99999999000 (request_for "/diary")))
     = Some undated_session.
Proof.
  split.
  - destruct (getSession_result_shape expiring 9990000 (request_for "/diary"))
      as (_ & _ & H & _).
    destruct (H _ eq_refl) as (refreshData & A & _ & B).
    + simpl. auto.
    + exists refreshData. split; [exact A|]. rewrite B. reflexivity.
  - destruct (getSession_result_shape undated 99999999000
                (request_for "/diary")) as (_ & _ & _ & H).
    destruct (H {| data_session := Some undated_session; error := None;
                   cookie_calls := [] |} undated_session
                eq_refl eq_refl eq_refl (or_intror eq_refl)
                (ex_intro _ hanako eq_refl)) as [A _].
    exact A.
Defined.

(** *** The decisions of the gateway *)

(** The routing decision, for every client, time and request: a static
    or API path passes; otherwise a caller with a session passes, except
    on an auth route, where the answer is the redirect to [/dashboard];
    a caller without a session passes, except on a protected path, where
    the answer is the redirect to [/login] that carries the path.
    Whether a cleanup is needed has no part in it. *)
Theorem gateway_routing (supabase : SupabaseAuth) (date_now : Z)
        (request : NextRequest) :
  let p := pathname (nextUrl request) in
  let to path params :=
    Redirect {| origin := origin (nextUrl request); pathname := path;
                searchParams := params |} in
  kind (fst (gateway supabase date_now request)) =
  if isStaticOrApi p then Next
  else match session (fst (getSession supabase date_now request)) with
       | Some _ =>
           if isProtectedRoute p then Next
           else if isAuthRoute p then to "/dashboard"%string []
           else Next
       | None =>
           if isProtectedRoute p then to "/login"%string [("redirect"%string, p)]
           else Next
       end.
Proof.
  intros p to. unfold gateway, middleware, middleware_try. fold p.
  destruct (isStaticOrApi p); [reflexivity|].
  pose proof (getSession_response_next supabase date_now request) as Hnext.
  destruct (getSession supabase date_now request) as [result effects].
  simpl in *.
  destruct (session result) as [s|]; simpl.
  - rewrite andb_false_r.
    destruct (isProtectedRoute p); [exact Hnext|].
    destruct (isAuthRoute p); simpl; [reflexivity|].
    destruct (isPublicRoute p); reflexivity.
  - rewrite andb_true_r.
    destruct (isProtectedRoute p) eqn:Hprot.
    + destruct (protected_not_root p Hprot) as [Htruthy Hroot].
      rewrite (createRedirect_destination _ _ p Htruthy Hroot).
      destruct (needsCleanup result); reflexivity.
    + destruct (needsCleanup result); simpl.
      * reflexivity.
      * rewrite andb_false_r. destruct (isPublicRoute p); reflexivity.
Qed.

(** The cookies of the answer, for every client, time and request that
    is not returned early.  With a session on a protected path they are
    the writes the Supabase client made through the cookie handlers; in
    every other case those writes are left behind: the answer deletes the
    two token cookies when a cleanup is needed, and writes none
    otherwise. *)
Theorem gateway_cookies (supabase : SupabaseAuth) (date_now : Z)
        (request : NextRequest) :
  let p := pathname (nextUrl request) in
  let result := fst (getSession supabase date_now request) in
  isStaticOrApi p = false ->
  cookies (fst (gateway supabase date_now request)) =
  match session result with
  | Some _ => if isProtectedRoute p then cookies (response result) else []
  | None =>
      if needsCleanup result
      then [CookieDelete "sb-access-token"; CookieDelete "sb-refresh-token"]
      else []
  end.
Proof.
  intros p result Hstatic. subst result.
  unfold gateway, middleware, middleware_try. fold p. rewrite Hstatic.
  destruct (getSession supabase date_now request) as [result effects].
  simpl.
  destruct (session result) as [s|]; simpl.
  - rewrite andb_false_r.
    destruct (isProtectedRoute p); [reflexivity|].
    destruct (isAuthRoute p); simpl; [reflexivity|].
    destruct (isPublicRoute p); reflexivity.
  - rewrite andb_true_r.
    destruct (isProtectedRoute p) eqn:Hprot.
    + destruct (protected_not_root p Hprot) as [Htruthy Hroot].
      rewrite (createRedirect_destination _ _ p Htruthy Hroot).
      destruct (needsCleanup result); reflexivity.
    + destruct (needsCleanup result); simpl.
      * reflexivity.
      * rewrite andb_false_r. destruct (isPublicRoute p); reflexivity.
Qed.

Lemma gateway_cookies_witness :
  cookies (fst (gateway expiring 9990000 (request_for "/diary"))) =
    [CookieSet "sb-access-token" "access-2" token_options]
  /\ cookies (fst (gateway expiring 9990000 (request_for "/"))) = [].
Proof.
  split.
  - rewrite (gateway_cookies expiring 9990000 (request_for "/diary"));
      reflexivity.
  - rewrite (gateway_cookies expiring 9990000 (request_for "/"));
      reflexivity.
Defined.

Lemma cookie_lost_by_a_write (browser_now : Z) (name : string)
      (writes : list CookieWrite) :
  forall (jar : gmap string string),
    is_Some (jar !! name) ->
    fold_left (apply_cookie_write browser_now) writes jar !! name = None ->
    In (CookieDelete name) writes
    \/ exists value options,
         In (CookieSet name value options) writes
         /\ expired browser_now options = true.
Proof.
  induction writes as [|w rest IH]; intros jar Hsome Hnone; simpl in Hnone.
  - rewrite Hnone in Hsome. destruct Hsome as [? [=]].
  - destruct (apply_cookie_write browser_now jar w !! name) as [kept|] eqn:Hstep.
    + destruct (IH _ (ex_intro _ kept Hstep) Hnone) as [H|(v & o & H & He)].
      * left. right. exact H.
      * right. exists v, o. split; [right; exact H | exact He].
    + destruct w as [n v o|n]; simpl in Hstep.
      * destruct (expired browser_now o) eqn:He.
        -- destruct (decide (n = name)) as [->|Hn].
           ++ right. exists v, o. split; [left; reflexivity | exact He].
           ++ rewrite lookup_delete_ne in Hstep by exact Hn.
              rewrite Hstep in Hsome. destruct Hsome as [? [=]].
        -- destruct (decide (n = name)) as [->|Hn].
           ++ rewrite lookup_insert_eq in Hstep. discriminate.
           ++ rewrite lookup_insert_ne in Hstep by exact Hn.
              rewrite Hstep in Hsome. destruct Hsome as [? [=]].
      * destruct (decide (n = name)) as [->|Hn].
        -- left. left. reflexivity.
        -- rewrite lookup_delete_ne in Hstep by exact Hn.
           rewrite Hstep in Hsome. destruct Hsome as [? [=]].
Qed.

(** When validation yields a session, the removals of the client reach
    the browser on a protected path, and nothing else removes a cookie: a
    cookie of the request is missing from the jar afterwards only if the
    path is protected and the client, during validation, wrote that
    cookie through a cookie handler with attributes that expire it (as
    its [remove] does with a [maxAge] of 0).  On every other path the jar
    is the one of the request. *)
Theorem session_cookie_lost_only_by_client_removal
        (supabase : SupabaseAuth) (date_now browser_now : Z)
        (request : NextRequest) (s : Session) :
  let p := pathname (nextUrl request) in
  let result := fst (getSession supabase date_now request) in
  let answer := fst (gateway supabase date_now request) in
  session result = Some s ->
  (isProtectedRoute p = false ->
   jar_after browser_now request answer = req_cookies request)
  /\ (forall name,
      is_Some (req_cookies request !! name) ->
      jar_after browser_now request answer !! name = None ->
      isProtectedRoute p = true
      /\ exists value options,
           In (CookieSet name value options) (cookies (response result))
           /\ expired browser_now options = true).
Proof.
  intros p result answer Hsome.
  assert (Hsets : forall name, ~ In (CookieDelete name)
                                    (cookies (response result)))
    by (intros name; apply getSession_writes_only_sets).
  assert (Hcookies : cookies answer =
                     if isStaticOrApi p then []
                     else if isProtectedRoute p then cookies (response result)
                          else []).
  { subst answer result. unfold gateway, middleware, middleware_try. fold p.
    destruct (isStaticOrApi p) eqn:Hstatic; [reflexivity|].
    destruct (getSession supabase date_now request) as [r effects].
    simpl in Hsome |- *. rewrite Hsome. simpl. rewrite andb_false_r.
    destruct (isProtectedRoute p); [reflexivity|].
    destruct (isAuthRoute p); simpl; [reflexivity|].
    destruct (isPublicRoute p); reflexivity. }
  split.
  - intros Hprot. unfold jar_after. rewrite Hcookies, Hprot.
    destruct (isStaticOrApi p); reflexivity.
  - intros name Hheld Hlost. unfold jar_after in Hlost.
    rewrite Hcookies in Hlost.
    destruct (isStaticOrApi p);
      [simpl in Hlost; rewrite Hlost in Hheld; destruct Hheld as [? [=]]|].
    destruct (isProtectedRoute p);
      [|simpl in Hlost; rewrite Hlost in Hheld; destruct Hheld as [? [=]]].
    split; [reflexivity|].
    destruct (cookie_lost_by_a_write _ _ _ _ Hheld Hlost) as [H|H];
      [destruct (Hsets name H) | exact H].
Qed.

Lemma session_cookie_lost_only_by_client_removal_witness :
  jar_after 0 (stale_request "/diary")
    (fst (gateway pruning 0 (stale_request "/diary")))
    !! "sb-refresh-token"%string = None
  /\ exists value options,
       In (CookieSet "sb-refresh-token" value options)
          (cookies (response (fst (getSession pruning 0
                                     (stale_request "/diary")))))
       /\ expired 0 options = true.
Proof.
  assert (Hlost : jar_after 0 (stale_request "/diary")
                    (fst (gateway pruning 0 (stale_request "/diary")))
                    !! "sb-refresh-token"%string = None)
    by (vm_compute; reflexivity).
  split; [exact Hlost|].
  destruct (session_cookie_lost_only_by_client_removal pruning 0 0
              (stale_request "/diary") hanako_session eq_refl)
    as (_ & H).
  destruct (H "sb-refresh-token"%string) as [_ E];
    [exists "stale-refresh"%string; reflexivity | exact Hlost | exact E].
Defined.

(** On a protected path that is not returned early, an invalid session
    that needs a cleanup is answered with the redirect to [/login] that
    carries the path, and with the deletion of both token cookies: the
    browser holds neither afterwards. *)
Theorem cleanup_redirect
        (validate : NextRequest -> Outcome (SessionResult * list Effect))
        (request : NextRequest) (result : SessionResult)
        (effects : list Effect) (browser_now : Z) :
  let p := pathname (nextUrl request) in
  isStaticOrApi p = false ->
  isProtectedRoute p = true ->
  validate request = Returns (result, effects) ->
  session result = None ->
  needsCleanup result = true ->
  let answer := fst (middleware validate request) in
  answer =
    {| kind := Redirect {| origin := origin (nextUrl request);
                           pathname := "/login";
                           searchParams := [("redirect"%string, p)] |};
       cookies := [CookieDelete "sb-access-token";
                   CookieDelete "sb-refresh-token"] |}
  /\ jar_after browser_now request answer !! "sb-access-token"%string = None
  /\ jar_after browser_now request answer !! "sb-refresh-token"%string = None.
Proof.
  intros p Hstatic Hprot Hval Hnone Hclean answer.
  destruct (protected_not_root p Hprot) as [Htruthy Hroot].
  assert (E : answer =
              {| kind := Redirect {| origin := origin (nextUrl request);
                                     pathname := "/login";
                                     searchParams := [("redirect"%string, p)] |};
                 cookies := [CookieDelete "sb-access-token";
                             CookieDelete "sb-refresh-token"] |}).
  { subst answer. unfold middleware, middleware_try. fold p.
    rewrite Hstatic, Hval, Hnone, Hclean, Hprot. simpl.
    rewrite (createRedirect_destination _ _ p Htruthy Hroot). reflexivity. }
  rewrite E. split; [reflexivity|]. unfold jar_after. simpl. split.
  - rewrite lookup_delete_ne by discriminate. apply lookup_delete_eq.
  - apply lookup_delete_eq.
Qed.

Lemma cleanup_redirect_witness :
  let request := stale_request "/email/new" in
  jar_after 0 request (fst (gateway service_down 0 request)) = ∅
  /\ kind (fst (gateway service_down 0 request)) =
     Redirect {| origin := "https://hoiku.example"; pathname := "/login";
                 searchParams := [("redirect", "/email/new")%string] |}.
Proof.
  intros request.
  destruct (cleanup_redirect
              (fun r => Returns (getSession service_down 0 r)) request
              (fst (getSession service_down 0 request))
              (snd (getSession service_down 0 request)) 0)
    as (E & _); try reflexivity.
  unfold gateway. rewrite E. split; [vm_compute|]; reflexivity.
Defined.

End GatewayMore.

(** * Further properties of the session context *)

Module AuthProviderFacts.

Import AuthContext AuthProvider Examples MoreExamples.

Lemma handleAuthError_shape (T : Type) (e : ClientError) :
  exists m k,
    @handleAuthError T e =
    {| data := None;
       error := Some {| message := m; code := Some k; field := None |};
       success := false |}.
Proof.
  unfold handleAuthError.
  repeat match goal with
         | |- context [includes ?m ?pat] => destruct (includes m pat)
         end; eauto.
Qed.

(** *** The error mapping *)

(** The response of [handleAuthError] is a failure without data whose
    code is one of the four fixed codes, the decimal of the error's
    status, or [unknown_error]; and its message never contains one of the
    four provider phrases the function looks for. *)
Theorem handleAuthError_codes (T : Type) (e : ClientError) :
  let phrases := ["Invalid login credentials"; "User already registered";
                  "Password should be"; "Email not confirmed"]%string in
  exists m k,
    @handleAuthError T e =
      {| data := None;
         error := Some {| message := m; code := Some k; field := None |};
         success := false |}
    /\ (In k ["invalid_credentials"; "user_exists"; "weak_password";
              "email_not_confirmed"; "unknown_error"]%string
        \/ exists status, err_status e = Some status /\ k = pretty status)
    /\ forall phrase, In phrase phrases -> includes m phrase = false.
Proof.
  intros phrases. unfold handleAuthError.
  destruct (includes (err_message e) "Invalid login credentials") eqn:H1;
    [do 2 eexists; split; [reflexivity|]; split;
       [left; simpl; tauto
       | intros ? [<-|[<-|[<-|[<-|[]]]]]; reflexivity]|].
  destruct (includes (err_message e) "User already registered") eqn:H2;
    [do 2 eexists; split; [reflexivity|]; split;
       [left; simpl; tauto
       | intros ? [<-|[<-|[<-|[<-|[]]]]]; reflexivity]|].
  destruct (includes (err_message e) "Password should be") eqn:H3;
    [do 2 eexists; split; [reflexivity|]; split;
       [left; simpl; tauto
       | intros ? [<-|[<-|[<-|[<-|[]]]]]; reflexivity]|].
  destruct (includes (err_message e) "Email not confirmed") eqn:H4;
    [do 2 eexists; split; [reflexivity|]; split;
       [left; simpl; tauto
       | intros ? [<-|[<-|[<-|[<-|[]]]]]; reflexivity]|].
  do 2 eexists. split; [reflexivity|]. split.
  - destruct (err_status e) as [status|]; [right; eauto | left; simpl; tauto].
  - intros ? [<-|[<-|[<-|[<-|[]]]]]; assumption.
Qed.

Lemma handleAuthError_codes_witness :
  @handleAuthError unit
    {| err_message := "AuthApiError: Invalid login credentials";
       err_status := Some 400 |} =
  {| data := None;
     error := Some {| message := "Invalid email or password";
                      code := Some "invalid_credentials"%string;
                      field := None |};
     success := false |}.
Proof.
  destruct (handleAuthError_codes unit
              {| err_message := "AuthApiError: Invalid login credentials";
                 err_status := Some 400 |}) as (m & k & E & _ & _).
  reflexivity.
Defined.

(** *** What the client does during a call *)

Lemma during_snoc (acts : list ClientAct) (a : ClientAct) (c : Context) :
  during (acts ++ [a]) c = act a (during acts c).
Proof. unfold during. rewrite fold_left_app. reflexivity. Qed.

Lemma act_window (a : ClientAct) (c : Context) :
  window_defined (act a c) = window_defined c.
Proof.
  destruct a as [event [s|] now|cookie [value|]]; simpl; try reflexivity;
    destruct (window_defined c) eqn:E; simpl; congruence.
Qed.

Lemma act_user_session (cookie : string) (value : option string)
      (c : Context) :
  ctx_user (act (WritesCookie cookie value) c) = ctx_user c
  /\ ctx_session (act (WritesCookie cookie value) c) = ctx_session c.
Proof.
  destruct value; simpl; destruct (window_defined c); split; reflexivity.
Qed.

(** The user and the session after the acts of the client are those of
    its last notification, and the former ones when there was none. *)
Lemma during_user_session (acts : list ClientAct) (c : Context) :
  (ctx_user (during acts c), ctx_session (during acts c)) =
  match last_notification acts with
  | Some n => announced n
  | None => (ctx_user c, ctx_session c)
  end.
Proof.
  induction acts as [|a acts IH] using rev_ind; [reflexivity|].
  rewrite during_snoc. unfold last_notification. rewrite omap_app.
  destruct a as [event s now|cookie value].
  - simpl. rewrite last_snoc. destruct s; reflexivity.
  - destruct (act_user_session cookie value (during acts c)) as [-> ->].
    simpl. rewrite app_nil_r. exact IH.
Qed.

(** Neither [loading] nor the console has a part in it. *)
Lemma during_user_session_frame (acts : list ClientAct) (c c' : Context) :
  ctx_user c' = ctx_user c -> ctx_session c' = ctx_session c ->
  (ctx_user (during acts c'), ctx_session (during acts c')) =
  (ctx_user (during acts c), ctx_session (during acts c)).
Proof.
  intros Hu Hs. rewrite !during_user_session, Hu, Hs. reflexivity.
Qed.

(** *** Identity is left to the listener *)

(** [signIn], [signUp], [resetPassword] and [changePassword] never set
    the user or the session themselves, whatever the identity service
    answers: after each of them the user and the session are those the
    listener set on the last notification the client delivered during
    the call, and those from before the call when it delivered none or
    was not called.  After [signIn] and [signUp] [loading] is false. *)
Theorem credentials_operations_leave_identity_to_listener (c : Context) :
  let settled (acts : list ClientAct) :=
    match last_notification acts with
    | Some n => announced n
    | None => (ctx_user c, ctx_session c)
    end in
  (forall credentials remote date_now,
      let after := snd (fst (signIn credentials remote date_now c)) in
      (ctx_user after, ctx_session after) = settled (activity remote)
      /\ loading after = false)
  /\ (forall credentials remote,
         let after := snd (fst (signUp credentials remote c)) in
         (ctx_user after, ctx_session after) =
           (if String.eqb (reg_password credentials)
                          (reg_confirm_password credentials)
            then settled (activity remote)
            else (ctx_user c, ctx_session c))
         /\ loading after = false)
  /\ (forall form origin remote,
         let after := snd (fst (resetPassword form origin remote c)) in
         (ctx_user after, ctx_session after) =
           (if window_defined c then settled (activity remote)
            else (ctx_user c, ctx_session c)))
  /\ (forall form remote,
         let after := snd (fst (changePassword form remote c)) in
         (ctx_user after, ctx_session after) =
           (if String.eqb (new_password form) (confirm_password form)
            then settled (activity remote)
            else (ctx_user c, ctx_session c))).
Proof.
  intros settled. split; [|split; [|split]].
  - intros credentials remote date_now after. subst after. unfold settled. cbv beta.
    rewrite <- during_user_session.
    rewrite <- (during_user_session_frame (activity remote) c
                  (setLoading true c) eq_refl eq_refl).
    unfold signIn.
    destruct (outcome remote) as [reply|thrown]; simpl; [|split; reflexivity].
    destruct (reply_error reply); simpl; [split; reflexivity|].
    destruct (reply_session reply); split; reflexivity.
  - intros credentials remote after. subst after. unfold settled. cbv beta. unfold signUp.
    destruct (String.eqb _ _); simpl; [|split; reflexivity].
    rewrite <- during_user_session.
    rewrite <- (during_user_session_frame (activity remote) c
                  (setLoading true c) eq_refl eq_refl).
    destruct (outcome remote) as [reply|thrown]; simpl; [|split; reflexivity].
    destruct (signup_error reply); simpl; [split; reflexivity|].
    destruct (signup_user reply); split; reflexivity.
  - intros form origin remote after. subst after. unfold settled. cbv beta.
    unfold resetPassword.
    destruct (window_defined c); simpl; [|reflexivity].
    rewrite <- during_user_session.
    destruct (outcome remote) as [[e|]|thrown]; reflexivity.
  - intros form remote after. subst after. unfold settled. cbv beta. unfold changePassword.
    destruct (String.eqb _ _); simpl; [|reflexivity].
    rewrite <- during_user_session.
    destruct (outcome remote) as [[e|]|thrown]; reflexivity.
Qed.

(** *** User and session go together *)

Lemma consistent_same (c c' : Context) :
  ctx_user c' = ctx_user c -> ctx_session c' = ctx_session c ->
  consistent c -> consistent c'.
Proof. unfold consistent. intros -> ->. auto. Qed.




(** *** Sign-up, password change, refresh *)

(** When the password and its confirmation differ, [signUp] and
    [changePassword] answer with the failure [password_mismatch] on the
    field [confirm_password] and call the identity service not at all;
    when they agree, they call it exactly once. *)
Theorem confirmation_checked_before_remote_call
        (credentials : RegisterForm) (form : ChangePasswordForm)
        (up : Remote SignUpReply) (change : Remote (option ClientError))
        (c : Context) :
  (reg_password credentials <> reg_confirm_password credentials ->
   fst (fst (signUp credentials up c)) =
     failure "Passwords do not match" "password_mismatch"
             (Some "confirm_password"%string)
   /\ snd (signUp credentials up c) = [])
  /\ (reg_password credentials = reg_confirm_password credentials ->
      length (snd (signUp credentials up c)) = 1%nat)
  /\ (new_password form <> confirm_password form ->
      fst (fst (changePassword form change c)) =
        failure "New passwords do not match" "password_mismatch"
                (Some "confirm_password"%string)
      /\ snd (changePassword form change c) = [])
  /\ (new_password form = confirm_password form ->
      snd (changePassword form change c) = [UpdateUser (new_password form)]).
Proof.
  unfold signUp, changePassword.
  split; [|split; [|split]].
  - intros H. apply String.eqb_neq in H. rewrite H. split; reflexivity.
  - intros H. apply String.eqb_eq in H. rewrite H. simpl.
    destruct (outcome up) as [reply|]; [|reflexivity].
    destruct (signup_error reply); [reflexivity|].
    destruct (signup_user reply); reflexivity.
  - intros H. apply String.eqb_neq in H. rewrite H. split; reflexivity.
  - intros H. apply String.eqb_eq in H. rewrite H. simpl.
    destruct (outcome change) as [[e|]|]; reflexivity.
Qed.

Lemma confirmation_checked_before_remote_call_witness :
  snd (signUp (mkRegisterForm "yuki@hoiku.example" "Secret123" "Secret124"
                 "yuki" None)
              (mkRemote [] (Rejects network_failure)) signed_in_tab) = []
  /\ snd (changePassword (mkChangePasswordForm "old" "Secret123" "Secret123")
                         (mkRemote [] (Resolves None)) signed_in_tab)
     = [UpdateUser "Secret123"].
Proof.
  destruct (confirmation_checked_before_remote_call
              (mkRegisterForm "yuki@hoiku.example" "Secret123" "Secret124"
                 "yuki" None)
              (mkChangePasswordForm "old" "Secret123" "Secret123")
              (mkRemote [] (Rejects network_failure))
              (mkRemote [] (Resolves None)) signed_in_tab)
    as (A & _ & _ & B).
  split; [apply A; discriminate | apply B; reflexivity].
Defined.

(** With matching passwords and an identity service that answers with a
    user and no error, [signUp] succeeds with the converted user, and
    [needsVerification] is true exactly when the answer holds no
    session. *)
Theorem signUp_needs_verification
        (credentials : RegisterForm) (acts : list ClientAct)
        (reply : SignUpReply) (u : SupabaseUser) (c : Context) :
  reg_password credentials = reg_confirm_password credentials ->
  signup_error reply = None ->
  signup_user reply = Some u ->
  exists needsVerification,
    fst (fst (signUp credentials (mkRemote acts (Resolves reply)) c)) =
      succeeded (Some (convertToAuthUser u, needsVerification))
    /\ (needsVerification = true <-> signup_session reply = None).
Proof.
  intros Hpw Herr Huser. apply String.eqb_eq in Hpw.
  unfold signUp. rewrite Hpw. simpl. rewrite Herr, Huser.
  destruct (signup_session reply); eexists; (split; [reflexivity|]);
    split; congruence.
Qed.

Lemma signUp_needs_verification_witness :
  fst (fst (signUp yuki_form
              (mkRemote []
                 (Resolves {| signup_user := Some new_teacher;
                              signup_session := None;
                              signup_error := None |}))
              signed_in_tab)) =
  succeeded (Some (convertToAuthUser new_teacher, true)).
Proof.
  destruct (signUp_needs_verification yuki_form []
              {| signup_user := Some new_teacher; signup_session := None;
                 signup_error := None |} new_teacher signed_in_tab
              eq_refl eq_refl eq_refl) as (b & E & Hb).
  rewrite E. replace b with true; [reflexivity|].
  symmetry. apply Hb. reflexivity.
Defined.

(** [refreshSession] is best effort: when the identity service throws,
    answers with an error, or answers with no session, the user, the
    session and the cookies stay as the client left them during the
    call; in particular a failed refresh does not by itself sign the user
    out.  Only a session answered without error replaces them, by its
    conversion. *)
Theorem refreshSession_best_effort (remote : Remote SessionReply)
        (date_now : Z) (c : Context) :
  let after := refreshSession remote date_now c in
  match outcome remote with
  | Resolves {| reply_session := Some s; reply_error := None |} =>
      ctx_session after = Some (convertToAuthSession date_now s)
      /\ ctx_user after = Some (convertToAuthUser (sb_user s))
      /\ document_cookie after = document_cookie (during (activity remote) c)
  | _ => identity after = identity (during (activity remote) c)
  end.
Proof.
  unfold refreshSession.
  destruct (outcome remote) as [[[s|] [e|]]|]; simpl; repeat split.
Qed.

(** *** The callers *)


End AuthProviderFacts.

(** * Properties of the login and registration forms *)

Module FormsFacts.

Import Gateway AuthContext AuthProvider Forms Examples MoreExamples.
Import GatewayFacts AuthProviderFacts.

(** The gateway sends a caller without session away from a protected
    path to the login page; the login form, on a successful sign-in,
    reads the [redirect] parameter of that page and navigates to the
    path the caller had asked for. *)
Theorem login_returns_to_requested_path
        (supabase : SupabaseAuth) (date_now : Z) (request : NextRequest)
        (ok : AuthResponse AuthSession) :
  let p := Gateway.pathname (nextUrl request) in
  isStaticOrApi p = false ->
  isProtectedRoute p = true ->
  session (fst (getSession supabase date_now request)) = None ->
  success ok = true ->
  exists login_page,
    kind (fst (gateway supabase date_now request)) = Redirect login_page
    /\ Gateway.pathname login_page = "/login"%string
    /\ pushed (login_onSubmit
                 (searchParams_get "redirect" (searchParams login_page))
                 (Returns ok)) = [p].
Proof.
  intros p Hstatic Hprot Hnone Hok.
  destruct (protected_not_root p Hprot) as [Htruthy Hroot].
  exists {| origin := origin (nextUrl request); pathname := "/login";
            searchParams := [("redirect"%string, p)] |}.
  split; [|split; [reflexivity|]].
  - unfold gateway, middleware, middleware_try. fold p. rewrite Hstatic.
    destruct (getSession supabase date_now request) as [result effects].
    simpl in Hnone. rewrite Hnone, Hprot. simpl.
    rewrite (createRedirect_destination _ _ p Htruthy Hroot).
    destruct (needsCleanup result); reflexivity.
  - unfold login_onSubmit. rewrite Hok. simpl. rewrite Htruthy. reflexivity.
Qed.

Lemma login_returns_to_requested_path_witness :
  exists login_page,
    kind (fst (gateway anonymous 0 (request_for "/records/2024"))) =
    Redirect login_page
    /\ pushed (login_onSubmit
                 (searchParams_get "redirect" (searchParams login_page))
                 (Returns (succeeded None))) = ["/records/2024"%string].
Proof.
  destruct (login_returns_to_requested_path anonymous 0
              (request_for "/records/2024") (succeeded None))
    as (page & A & _ & B); try reflexivity.
  exists page. split; assumption.
Defined.

(** The login form navigates exactly when [signIn] got a session without
    error from the identity service: to the [redirect] parameter when it
    is there and not empty, to [/dashboard] otherwise.  On every failure
    it stays on the page. *)
Theorem login_navigation
        (credentials : LoginForm) (remote : Remote SessionReply)
        (date_now : Z) (c : Context) (redirectTo : option string) :
  pushed (login_onSubmit redirectTo
            (Returns (fst (fst (signIn credentials remote date_now c))))) =
  match outcome remote with
  | Resolves {| reply_session := Some _; reply_error := None |} =>
      [match redirectTo with
       | Some d => if truthy d then d else "/dashboard"%string
       | None => "/dashboard"%string
       end]
  | _ => []
  end.
Proof.
  assert (Hfail : forall e : ClientError,
             pushed (login_onSubmit redirectTo
                       (Returns (@handleAuthError AuthSession e))) = []).
  { intros e. destruct (handleAuthError_shape AuthSession e) as (m & k & ->).
    reflexivity. }
  unfold signIn.
  destruct (outcome remote) as [[[s|] [e|]]|thrown]; simpl; try apply Hfail;
    try reflexivity.
  destruct redirectTo as [d|]; simpl; [destruct (truthy d)|]; reflexivity.
Qed.

(** The registration form navigates to [/dashboard] exactly when the
    passwords agree and the identity service answered [signUp] with a
    user and a session and no error; when the answer holds a user but no
    session (verification pending), and on every failure, it stays on the
    page. *)
Theorem registration_navigation
        (credentials : RegisterForm) (remote : Remote SignUpReply)
        (c : Context) :
  pushed (register_onSubmit
            (Returns (fst (fst (signUp credentials remote c))))) =
  if String.eqb (reg_password credentials) (reg_confirm_password credentials)
  then match outcome remote with
       | Resolves {| signup_user := Some _; signup_session := Some _;
                     signup_error := None |} => ["/dashboard"%string]
       | _ => []
       end
  else [].
Proof.
  assert (Hfail : forall e : ClientError,
             pushed (register_onSubmit
                       (Returns (@handleAuthError (AuthUser * bool) e))) = []).
  { intros e.
    destruct (handleAuthError_shape (AuthUser * bool) e) as (m & k & ->).
    reflexivity. }
  unfold signUp.
  destruct (String.eqb _ _); [|reflexivity]. simpl.
  destruct (outcome remote) as [[[u|] [s|] [e|]]|thrown]; simpl;
    try apply Hfail; reflexivity.
Qed.

End FormsFacts.

(** * Further properties of the data-access layer *)

Module DatabaseMore.

Import Database DatabaseVocabulary Examples MoreExamples DatabaseFacts.

(** *** Errors *)

Lemma try_catch_wraps {A : Type} (body : M A) (listed : Exn -> bool)
      (line wrapped : string) (w : World) (e : Exn) :
  (forall x, listed x = true -> isModuleError x = true) ->
  fst (try_catch body (rethrow_or_wrap listed line wrapped) w) = Throw e ->
  isModuleError e = true.
Proof.
  intros Hlisted. unfold try_catch, rethrow_or_wrap.
  destruct (body w) as [[a|x] w']; simpl; [discriminate|].
  destruct (listed x) eqn:Hx; simpl; intros [= <-]; auto.
Qed.

(** Whatever the arguments, the caller, the tables and the failures of
    the service, an error thrown by [getUserProfile], [updateUserProfile],
    [getChildren] or [saveGenerationHistory] is a [DatabaseError], an
    [AuthenticationError] or a [PermissionError]: an exception of the
    client never leaves the module as it is. *)
Theorem only_module_errors_thrown (sb : Supabase) (w : World) (e : Exn) :
  (forall userId,
      fst (getUserProfile sb userId w) = Throw e -> isModuleError e = true)
  /\ (forall userId updates,
         fst (updateUserProfile sb userId updates w) = Throw e ->
         isModuleError e = true)
  /\ (forall classId,
         fst (getChildren sb classId w) = Throw e -> isModuleError e = true)
  /\ (forall data,
         fst (saveGenerationHistory sb data w) = Throw e ->
         isModuleError e = true).
Proof.
  unfold isModuleError.
  split; [|split; [|split]]; intros;
    eapply try_catch_wraps; try eassumption;
    intros x Hx; unfold isModuleError; rewrite ?Hx; auto.
Qed.

Lemma only_module_errors_thrown_witness :
  fst (getChildren offline_client None nursery) =
    Throw (DatabaseError
             "ユーザープロファイルの取得中に予期しないエラーが発生しました" None)
  /\ isModuleError
       (DatabaseError
          "ユーザープロファイルの取得中に予期しないエラーが発生しました" None)
     = true.
Proof.
  split; [reflexivity|].
  destruct (only_module_errors_thrown offline_client nursery
              (DatabaseError
                 "ユーザープロファイルの取得中に予期しないエラーが発生しました"
                 None)) as (_ & _ & H & _).
  apply (H None). reflexivity.
Defined.

(** *** Callers without identity *)

Lemma untouched_refl (w : World) : untouched w w.
Proof. split; reflexivity. Qed.

Lemma untouched_trans (w1 w2 w3 : World) :
  untouched w1 w2 -> untouched w2 w3 -> untouched w1 w3.
Proof. intros [A B] [C D]. split; congruence. Qed.

Lemma untouched_console (w : World) (line : string) :
  untouched w (console_error line w).
Proof. split; reflexivity. Qed.

Lemma getCurrentUser_value (sb : Supabase) (w : World) :
  fst (getCurrentUser sb w) = Ok (currentUser sb)
  /\ untouched w (snd (getCurrentUser sb w)).
Proof.
  assert (Hcall : untouched w (record_call AuthGetUser w)).
  { split; [reflexivity|]. simpl. rewrite filter_app. simpl.
    apply app_nil_r. }
  unfold getCurrentUser, currentUser.
  destruct (auth_getUser sb) as [reply|]; simpl.
  - destruct (auth_error reply); simpl; split; auto.
    all: split; [reflexivity|apply Hcall].
  - split; [reflexivity|]. split; [reflexivity|apply Hcall].
Qed.

Lemma rethrow_listed {A : Type} (listed : Exn -> bool) (line wrapped : string)
      (e : Exn) (w : World) :
  listed e = true ->
  @rethrow_or_wrap A listed line wrapped e w = (Throw e, w).
Proof. unfold rethrow_or_wrap. intros ->. reflexivity. Qed.

(** When [getCurrentUser] finds no user (the client throws, reports an
    error, or has none), every operation throws: a [DatabaseError]
    without code when its input validation fails first, and the default
    [AuthenticationError] otherwise.  No request reaches a table and the
    tables stay as they were. *)
Theorem no_identity_no_table_access (sb : Supabase) (w : World) :
  currentUser sb = None ->
  let refused {A : Type} (run : Result A * World) : Prop :=
    (fst run = Throw AuthenticationError_default
     \/ exists m, fst run = Throw (DatabaseError m None))
    /\ untouched w (snd run) in
  (forall userId, refused (getUserProfile sb userId w))
  /\ (forall userId updates, refused (updateUserProfile sb userId updates w))
  /\ (forall classId, refused (getChildren sb classId w))
  /\ (forall data, refused (saveGenerationHistory sb data w)).
Proof.
  intros Hnone refused. subst refused. simpl.
  destruct (getCurrentUser_value sb w) as [Hval Hun]. rewrite Hnone in Hval.
  split; [|split; [|split]].
  - intros userId. unfold getUserProfile, try_catch, bind.
    destruct (truthy userId); simpl.
    + destruct (getCurrentUser sb w) as [r w1]. simpl in *. subst r.
      simpl. split; [left; reflexivity | exact Hun].
    + split; [right; eauto | apply untouched_refl].
  - intros userId updates. unfold updateUserProfile, try_catch, bind.
    destruct (truthy userId); simpl;
      [|split; [right; eauto | apply untouched_refl]].
    destruct updates as [updates|]; simpl;
      [|split; [right; eauto | apply untouched_refl]].
    destruct (Nat.eqb (keys_length updates) 0); simpl;
      [split; [right; eauto | apply untouched_refl]|].
    destruct (getCurrentUser sb w) as [r w1]. simpl in *. subst r.
    simpl. split; [left; reflexivity | exact Hun].
  - intros classId. unfold getChildren, try_catch, bind.
    destruct (getCurrentUser sb w) as [r w1]. simpl in *. subst r.
    simpl. split; [left; reflexivity | exact Hun].
  - intros data. unfold saveGenerationHistory, try_catch, bind.
    destruct data as [data|];
      [|split; [right; eauto | apply untouched_refl]].
    destruct (negb (truthy (user_id data)) || negb (truthy (type data)) ||
              negb (truthy (input data)) || negb (truthy (output data)));
      [split; [right; eauto | apply untouched_refl]|].
    destruct (negb (existsb (String.eqb (type data)) validTypes));
      [split; [right; eauto | apply untouched_refl]|].
    destruct (getCurrentUser sb w) as [r w1]. simpl in *. subst r.
    simpl. split; [left; reflexivity | exact Hun].
Qed.

Lemma no_identity_no_table_access_witness :
  fst (saveGenerationHistory signed_out_client (Some diary_record) nursery)
  = Throw AuthenticationError_default
  /\ tables (snd (saveGenerationHistory signed_out_client
                    (Some diary_record) nursery)) = tables nursery.
Proof.
  destruct (no_identity_no_table_access signed_out_client nursery eq_refl)
    as (_ & _ & _ & H).
  destruct (H (Some diary_record)) as [_ [Ht _]].
  split; [reflexivity | exact Ht].
Defined.

(** *** Reads *)

(** Case analysis on every test a computation makes. *)
Ltac split_cases :=
  repeat (cbn beta iota delta
            [fst snd tables calls console record_call console_error set_tables];
          match goal with
          | |- context [match ?x with _ => _ end] =>
              lazymatch x with
              | context [match _ with _ => _ end] => fail
              | _ => destruct x eqn:?
              end
          end).

Lemma getUserProfile_keeps_tables (sb : Supabase) (userId : string)
      (w : World) :
  tables (snd (getUserProfile sb userId w)) = tables w.
Proof.
  unfold getUserProfile, try_catch, bind, rethrow_or_wrap, throw, ret,
    getCurrentUser, users_select_single, request, AuthenticationError_default.
  split_cases; reflexivity.
Qed.

(** [getUserProfile] and [getChildren] only read: whatever the arguments,
    the caller and the failures of the service, the tables after the call
    are the tables before it. *)
Theorem reads_keep_tables (sb : Supabase) (w : World) :
  (forall userId, tables (snd (getUserProfile sb userId w)) = tables w)
  /\ (forall classId, tables (snd (getChildren sb classId w)) = tables w).
Proof.
  split; [intros; apply getUserProfile_keeps_tables|].
  intros classId. unfold getChildren, try_catch, bind.
  destruct (getCurrentUser_value sb w) as [Hval [Hun _]].
  destruct (getCurrentUser sb w) as [r w1]. simpl in Hval, Hun. subst r.
  destruct (currentUser sb) as [caller|];
    [|unfold rethrow_or_wrap; simpl; exact Hun].
  pose proof (getUserProfile_keeps_tables sb (auth_id caller) w1) as Hprofile.
  destruct (getUserProfile sb (auth_id caller) w1) as [r w2].
  simpl in Hprofile. rewrite <- Hun, <- Hprofile.
  destruct r as [[profile|]|e].
  - unfold rethrow_or_wrap, throw, ret, children_select, request.
    split_cases; reflexivity.
  - unfold rethrow_or_wrap. simpl. reflexivity.
  - unfold rethrow_or_wrap, throw. destruct e; reflexivity.
Qed.

(** *** Which children a caller sees *)

Lemma insert_by_name_perm (c : Child) (l : list Child) :
  Permutation (insert_by_name c l) (c :: l).
Proof.
  induction l as [|d l IH]; simpl; [reflexivity|].
  destruct (String.leb (child_name c) (child_name d)); [reflexivity|].
  rewrite IH. apply perm_swap.
Qed.

Lemma sort_by_name_perm (l : list Child) :
  Permutation (fold_right insert_by_name [] l) l.
Proof.
  induction l as [|c l IH]; simpl; [reflexivity|].
  rewrite insert_by_name_perm. apply perm_skip. exact IH.
Qed.

Lemma run_children_query_perm (q : ChildrenQuery) (rows : list Child) :
  Permutation (run_children_query q rows) (filter (selected q) rows).
Proof.
  unfold run_children_query, selected.
  assert (Hall : filter (fun _ : Child => true) rows = rows).
  { induction rows as [|c rows IH]; [reflexivity|].
    rewrite filter_cons_True by exact I. congruence. }
  destruct (eq_class_id q) as [v|], (order_name q);
    rewrite ?Hall, ?sort_by_name_perm; reflexivity.
Qed.

Lemma children_select_answer (sb : Supabase) (q : ChildrenQuery) (w : World)
      (rows : list Child) (w' : World) :
  children_select sb q w = (Ok (Data rows), w') ->
  rows = run_children_query q (children (tables w)).
Proof.
  unfold children_select, request.
  destruct (fault sb (ChildrenSelect q)) as [[code|m]|]; simpl;
    congruence.
Qed.

(** A caller whose profile has a non-empty [assigned_class] sees the
    children of that class and no others: whatever [classId] is passed,
    when [getChildren] returns rows they are, up to their order, exactly
    the rows of the children table whose [class_id] is the caller's
    class. *)
Theorem children_confined_to_assigned_class
        (sb : Supabase) (caller : AuthUser) (profile : User) (own : string)
        (classId : option string) (w : World) (rows : list Child) :
  authenticatedAs sb caller ->
  truthy (auth_id caller) = true ->
  fault sb (UsersSelectSingle (auth_id caller)) = None ->
  users (tables w) !! auth_id caller = Some profile ->
  assigned_class profile = Some own ->
  truthy own = true ->
  fst (getChildren sb classId w) = Ok rows ->
  Permutation rows
    (filter (fun c => String.eqb (class_id c) own) (children (tables w))).
Proof.
  intros Hauth Hid Hfault Hrow Hown Htruthy.
  unfold getChildren, try_catch, bind.
  rewrite (getCurrentUser_authenticated sb caller w Hauth).
  rewrite (getUserProfile_answer sb caller _ _ Hid Hauth Hfault).
  simpl. rewrite Hrow, Hown. simpl. rewrite Htruthy.
  set (w3 := record_call _ _).
  assert (Hquery : forall w4 r,
             children_select sb
               (query_order_name (query_eq_class_id own from_children_select))
               w3 = (r, w4) ->
             match r with
             | Ok (Data found) =>
                 Permutation found
                   (filter (fun c => String.eqb (class_id c) own)
                      (children (tables w)))
             | _ => True
             end).
  { intros w4 [[found|code]|e] Hsel; try exact I.
    apply children_select_answer in Hsel. subst found.
    apply (run_children_query_perm
             (query_order_name (query_eq_class_id own from_children_select))). }
  destruct (truthy_opt classId) eqn:Hclass.
  - destruct classId as [cid|]; [|discriminate]. simpl.
    destruct (bool_decide (Some own = Some cid)) eqn:Hdec; simpl.
    + apply bool_decide_eq_true_1 in Hdec. injection Hdec as <-.
      unfold ret.
      destruct (children_select sb _ w3) as [r w4] eqn:Hsel.
      specialize (Hquery w4 r eq_refl).
      destruct r as [[found|code]|e]; simpl.
      * intros [= <-]. exact Hquery.
      * discriminate.
      * unfold rethrow_or_wrap. destruct (_ || _); discriminate.
    + discriminate.
  - unfold ret.
    destruct (children_select sb _ w3) as [r w4] eqn:Hsel.
    specialize (Hquery w4 r eq_refl).
    destruct r as [[found|code]|e]; simpl.
    + intros [= <-]. exact Hquery.
    + discriminate.
    + unfold rethrow_or_wrap. destruct (_ || _); discriminate.
Qed.

Lemma children_confined_to_assigned_class_witness :
  Permutation [taro]
    (filter (fun c => String.eqb (class_id c) "koala")
       (children (tables nursery))).
Proof.
  apply (children_confined_to_assigned_class (client_of "u1")
           (mkAuthUser "u1") sensei "koala" None nursery [taro]);
    reflexivity.
Defined.

(** A caller whose profile has no [assigned_class] (or an empty one) is
    never refused: with the service answering, [getChildren] returns, up
    to their order, the children of the class passed as [classId], and
    all the children when [classId] is absent or empty. *)
Theorem unassigned_caller_sees_requested_class
        (sb : Supabase) (caller : AuthUser) (profile : User)
        (classId : option string) (w : World) :
  authenticatedAs sb caller ->
  truthy (auth_id caller) = true ->
  fault sb (UsersSelectSingle (auth_id caller)) = None ->
  users (tables w) !! auth_id caller = Some profile ->
  truthy_opt (assigned_class profile) = false ->
  (forall q, fault sb (ChildrenSelect q) = None) ->
  exists rows,
    fst (getChildren sb classId w) = Ok rows
    /\ Permutation rows
         (filter (fun c => negb (truthy_opt classId) ||
                           String.eqb (class_id c) (default ""%string classId))
                 (children (tables w))).
Proof.
  intros Hauth Hid Hfault Hrow Hnone Hchildren.
  unfold getChildren, try_catch, bind.
  rewrite (getCurrentUser_authenticated sb caller w Hauth).
  rewrite (getUserProfile_answer sb caller _ _ Hid Hauth Hfault).
  simpl. rewrite Hrow. simpl. rewrite Hnone.
  destruct (truthy_opt classId) eqn:Hclass; simpl.
  - destruct classId as [cid|]; [|discriminate]. simpl.
    unfold ret, children_select, request. rewrite Hchildren. simpl.
    eexists. split; [reflexivity|].
    apply (run_children_query_perm
             (query_order_name (query_eq_class_id cid from_children_select))).
  - assert (Hquery :
              (match assigned_class profile with
               | Some own =>
                   if truthy own
                   then ret (query_eq_class_id own from_children_select)
                   else ret from_children_select
               | None => ret from_children_select
               end) = @ret ChildrenQuery from_children_select).
    { destruct (assigned_class profile) as [own|]; [|reflexivity].
      simpl in Hnone. rewrite Hnone. reflexivity. }
    rewrite Hquery.
    unfold ret, children_select, request. rewrite Hchildren. simpl.
    eexists. split; [reflexivity|].
    apply (run_children_query_perm (query_order_name from_children_select)).
Qed.

Lemma unassigned_caller_sees_requested_class_witness :
  fst (getChildren (client_of "u9") (Some "bear"%string)
         nursery_with_director) = Ok [jiro]
  /\ exists rows,
       fst (getChildren (client_of "u9") None nursery_with_director) = Ok rows
       /\ Permutation rows [taro; jiro].
Proof.
  split; [reflexivity|].
  destruct (unassigned_caller_sees_requested_class (client_of "u9")
              (mkAuthUser "u9") director None nursery_with_director)
    as (rows & A & B); try reflexivity.
  exists rows. split; [exact A | exact B].
Defined.

(** An authenticated caller who has no row in the users table gets an
    [AuthenticationError] from [getChildren], and no request is sent to
    the children table. *)
Theorem getChildren_without_profile
        (sb : Supabase) (caller : AuthUser) (classId : option string)
        (w : World) :
  authenticatedAs sb caller ->
  truthy (auth_id caller) = true ->
  fault sb (UsersSelectSingle (auth_id caller)) = None ->
  users (tables w) !! auth_id caller = None ->
  getChildren sb classId w =
  (Throw (AuthenticationError "ユーザープロファイルが見つかりません"),
   record_call (UsersSelectSingle (auth_id caller))
     (record_call AuthGetUser (record_call AuthGetUser w))).
Proof.
  intros Hauth Hid Hfault Hrow.
  unfold getChildren, try_catch, bind.
  rewrite (getCurrentUser_authenticated sb caller w Hauth).
  rewrite (getUserProfile_answer sb caller _ _ Hid Hauth Hfault).
  simpl. rewrite Hrow. reflexivity.
Qed.

Lemma getChildren_without_profile_witness :
  fst (getChildren no_profile None nursery) =
  Throw (AuthenticationError "ユーザープロファイルが見つかりません").
Proof.
  rewrite (getChildren_without_profile no_profile (mkAuthUser "u-new")
             None nursery); reflexivity.
Defined.

(** *** Profile updates *)

(** When the owner of a profile passes a non-empty [assigned_class] that
    is none of [koala], [bear], [giraffe], [updateUserProfile] throws a
    [DatabaseError] that lists the valid values; the only request sent is
    the one that asks who the caller is, and the tables are as they
    were. *)
Theorem invalid_class_rejected_before_write
        (sb : Supabase) (caller : AuthUser) (userId class : string)
        (updates : UserProfileUpdate) (w : World) :
  truthy userId = true ->
  authenticatedAs sb caller ->
  auth_id caller = userId ->
  upd_assigned_class updates = Some class ->
  truthy class = true ->
  ~ In class validClasses ->
  updateUserProfile sb userId (Some updates) w =
  (Throw (DatabaseError
            "無効なクラス指定です。有効な値: koala, bear, giraffe" None),
   record_call AuthGetUser w).
Proof.
  intros Hid Hauth Hsame Hclass Htruthy Hnot.
  assert (Hkeys : Nat.eqb (keys_length updates) 0 = false).
  { unfold keys_length. rewrite Hclass.
    destruct (upd_id updates), (upd_email updates), (upd_name updates),
      (upd_created_at updates), (upd_updated_at updates); reflexivity. }
  assert (Hrej : assigned_class_accepted updates = false).
  { unfold assigned_class_accepted. rewrite Hclass, Htruthy.
    destruct (existsb (String.eqb class) validClasses) eqn:E; [|reflexivity].
    apply existsb_exists in E as (v & Hin & Heq).
    apply String.eqb_eq in Heq. subst v. contradiction. }
  unfold updateUserProfile, try_catch, bind. rewrite Hid, Hkeys. simpl.
  rewrite (getCurrentUser_authenticated sb caller w Hauth).
  rewrite Hsame, String.eqb_refl, Hrej. reflexivity.
Qed.

Lemma invalid_class_rejected_before_write_witness :
  updateUserProfile (client_of "u1") "u1" (Some unknown_class_patch) nursery =
  (Throw (DatabaseError
            "無効なクラス指定です。有効な値: koala, bear, giraffe" None),
   record_call AuthGetUser nursery).
Proof.
  apply (invalid_class_rejected_before_write (client_of "u1")
           (mkAuthUser "u1") "u1" "panda" unknown_class_patch nursery);
    try reflexivity.
  simpl. intros [H|[H|[H|[]]]]; discriminate H.
Defined.



(** *** The generation history *)


(** With a complete record of a valid type, an authenticated caller who
    is not the [user_id] of the record gets a [PermissionError]; the only
    request sent is the one that asks who the caller is. *)
Theorem save_for_other_user_denied
        (sb : Supabase) (caller : AuthUser) (data : GenerationHistoryInsert)
        (w : World) :
  truthy (user_id data) = true ->
  truthy (input data) = true ->
  truthy (output data) = true ->
  In (type data) validTypes ->
  authenticatedAs sb caller ->
  auth_id caller <> user_id data ->
  saveGenerationHistory sb (Some data) w =
  (Throw (PermissionError
            "他のユーザーの生成履歴を保存する権限がありません"),
   record_call AuthGetUser w).
Proof.
  intros Huid Hin Hout Htype Hauth Hother.
  assert (Ht : truthy (type data) = true).
  { simpl in Htype. destruct Htype as [<-|[<-|[<-|[]]]]; reflexivity. }
  assert (Hmem : existsb (String.eqb (type data)) validTypes = true).
  { apply existsb_exists. exists (type data).
    split; [exact Htype | apply String.eqb_refl]. }
  apply String.eqb_neq in Hother.
  unfold saveGenerationHistory, try_catch, bind.
  rewrite Huid, Ht, Hin, Hout, Hmem. simpl.
  rewrite (getCurrentUser_authenticated sb caller w Hauth).
  rewrite Hother. reflexivity.
Qed.

Lemma save_for_other_user_denied_witness :
  saveGenerationHistory (client_of "u2") (Some diary_record) nursery =
  (Throw (PermissionError
            "他のユーザーの生成履歴を保存する権限がありません"),
   record_call AuthGetUser nursery).
Proof.
  apply (save_for_other_user_denied (client_of "u2") (mkAuthUser "u2")
           diary_record nursery); try reflexivity.
  - simpl. auto.
  - discriminate.
Defined.

End DatabaseMore.

(** * Properties of the token store *)

Module TokenStoreFacts.

Import TokenStore Examples MoreExamples.
Import AuthProvider(split_head).

(** *** Splitting *)

Lemma split_cons_other (sep c : ascii) (s : string) :
  Ascii.eqb c sep = false ->
  split sep (String c s) =
  String c (hd EmptyString (split sep s)) :: tl (split sep s).
Proof.
  intros H. simpl. rewrite H. destruct (split sep s); reflexivity.
Qed.

Lemma split_app_sep (sep : ascii) (s t : string) :
  all_chars (fun c => negb (Ascii.eqb c sep)) s = true ->
  split sep (s +:+ String sep t) = s :: split sep t.
Proof.
  induction s as [|c s IH]; simpl.
  - intros _. rewrite Ascii.eqb_refl. reflexivity.
  - intros H. apply andb_true_iff in H as [Hc Hs].
    apply negb_true_iff in Hc. rewrite Hc, (IH Hs). reflexivity.
Qed.

Lemma split_none (sep : ascii) (s : string) :
  all_chars (fun c => negb (Ascii.eqb c sep)) s = true ->
  split sep s = [s].
Proof.
  induction s as [|c s IH]; simpl; [reflexivity|].
  intros H. apply andb_true_iff in H as [Hc Hs].
  apply negb_true_iff in Hc. rewrite Hc, (IH Hs). reflexivity.
Qed.

Lemma all_chars_impl (p q : ascii -> bool) (s : string) :
  (forall c, p c = true -> q c = true) ->
  all_chars p s = true -> all_chars q s = true.
Proof.
  intros Hpq. induction s as [|c s IH]; simpl; [reflexivity|].
  intros H. apply andb_true_iff in H as [Hc Hs].
  rewrite (Hpq c Hc), (IH Hs). reflexivity.
Qed.

Lemma all_chars_app (p : ascii -> bool) (s t : string) :
  all_chars p (s +:+ t) = all_chars p s && all_chars p t.
Proof.
  induction s as [|c s IH]; simpl; [reflexivity|].
  rewrite IH. apply andb_assoc.
Qed.

Lemma token_octets (s : string) : token s = true -> octets s = true.
Proof.
  apply all_chars_impl. intros c H. apply andb_true_iff in H. tauto.
Qed.

Lemma octets_no_semicolon (s : string) :
  octets s = true -> all_chars (fun c => negb (Ascii.eqb c ";")) s = true.
Proof.
  apply all_chars_impl. intros c H. unfold cookie_octet in H.
  apply andb_true_iff in H. tauto.
Qed.

Lemma token_no_equals (s : string) :
  token s = true -> all_chars (fun c => negb (Ascii.eqb c "=")) s = true.
Proof.
  apply all_chars_impl. intros c H. apply andb_true_iff in H. tauto.
Qed.

(** *** One cookie in the text of [document.cookie] *)

Lemma pair_text_octets (n v : string) :
  token n = true -> octets v = true -> octets (pair_text (n, v)) = true.
Proof.
  intros Hn Hv. apply token_octets in Hn.
  unfold pair_text, octets in *. cbn [fst snd].
  rewrite all_chars_app, Hn. change ("=" +:+ v) with (String "=" v).
  cbn [all_chars andb]. rewrite Hv. reflexivity.
Qed.

(** The name of a cookie is found by its text. *)
Lemma token_cons (c : ascii) (s : string) :
  token (String c s) = true -> c <> "="%char /\ token s = true.
Proof.
  unfold token. cbn [all_chars]. intros H.
  apply andb_true_iff in H as [Hc Hs].
  apply andb_true_iff in Hc as [_ Hc].
  apply negb_true_iff, Ascii.eqb_neq in Hc. split; assumption.
Qed.

Lemma prefix_step (a b : ascii) (s1 s2 : string) :
  String.prefix (String a s1) (String b s2) =
  Ascii.eqb a b && String.prefix s1 s2.
Proof.
  cbn [String.prefix]. destruct (ascii_dec a b) as [->|Hne].
  - rewrite Ascii.eqb_refl. reflexivity.
  - apply Ascii.eqb_neq in Hne. rewrite Hne. reflexivity.
Qed.

Lemma append_nil (t : string) : "" +:+ t = t.
Proof. reflexivity. Qed.

Lemma append_cons (c : ascii) (s t : string) :
  String c s +:+ t = String c (s +:+ t).
Proof. reflexivity. Qed.

Lemma eqb_cons (a b : ascii) (s t : string) :
  String.eqb (String a s) (String b t) = Ascii.eqb a b && String.eqb s t.
Proof. cbn [String.eqb]. destruct (Ascii.eqb a b); reflexivity. Qed.

Lemma pair_text_prefix (name n v : string) :
  token name = true -> token n = true ->
  String.prefix (name +:+ "=") (pair_text (n, v)) = String.eqb n name.
Proof.
  unfold pair_text. cbn [fst snd]. revert n.
  induction name as [|a name IH]; intros n Hname Hn.
  - destruct n as [|c n]; rewrite ?append_nil, ?append_cons.
    + rewrite prefix_step, Ascii.eqb_refl. destruct v; reflexivity.
    + apply token_cons in Hn as [Hc _]. rewrite prefix_step.
      assert (E : Ascii.eqb "=" c = false) by (apply Ascii.eqb_neq; congruence).
      rewrite E. reflexivity.
  - apply token_cons in Hname as [Ha Hname].
    destruct n as [|c n]; rewrite ?append_nil, ?append_cons.
    + rewrite prefix_step.
      assert (E : Ascii.eqb a "=" = false) by (apply Ascii.eqb_neq; congruence).
      rewrite E. reflexivity.
    + apply token_cons in Hn as [_ Hn]. rewrite prefix_step, eqb_cons.
      rewrite (Ascii.eqb_sym c a).
      destruct (Ascii.eqb a c); [apply IH; assumption | reflexivity].
Qed.

Lemma split_pieces (sep : ascii) (s : string) :
  exists piece pieces, split sep s = piece :: pieces.
Proof.
  destruct s as [|c s]; simpl; [eauto|].
  destruct (Ascii.eqb c sep); [eauto|]. destruct (split sep s); eauto.
Qed.

Lemma pair_text_value (n v : string) :
  token n = true ->
  nth 1 (split "=" (pair_text (n, v))) "undefined"%string =
  hd EmptyString (split "=" v).
Proof.
  intros Hn. unfold pair_text. cbn [fst snd].
  rewrite append_cons, append_nil.
  rewrite (split_app_sep "=" n v (token_no_equals n Hn)).
  destruct (split_pieces "=" v) as (piece & pieces & ->). reflexivity.
Qed.

Lemma spaced_value (n v : string) :
  token n = true ->
  nth 1 (split "=" (String " " (pair_text (n, v)))) "undefined"%string =
  hd EmptyString (split "=" v).
Proof.
  intros Hn. rewrite split_cons_other by reflexivity.
  unfold pair_text. cbn [fst snd].
  rewrite append_cons, append_nil.
  rewrite (split_app_sep "=" n v (token_no_equals n Hn)).
  destruct (split_pieces "=" v) as (piece & pieces & ->). reflexivity.
Qed.

(** *** The text of [document.cookie], cut at the semicolons *)

Lemma concat_cons2 (sep x y : string) (rest : list string) :
  String.concat sep (x :: y :: rest) =
  x +:+ sep +:+ String.concat sep (y :: rest).
Proof. reflexivity. Qed.

Lemma cookie_pieces (cookies : list (string * string)) :
  wellFormed cookies ->
  split ";" (String.concat "; " (map pair_text cookies)) =
  match cookies with
  | [] => [EmptyString]
  | first :: rest =>
      pair_text first :: map (fun y => String " " (pair_text y)) rest
  end.
Proof.
  induction cookies as [|[n v] rest IH]; [reflexivity|].
  intros (Hn & Hv & _ & Hrest).
  pose proof (octets_no_semicolon _ (pair_text_octets n v Hn Hv)) as Hplain.
  destruct rest as [|second rest].
  - simpl. apply split_none. exact Hplain.
  - cbn [map]. rewrite concat_cons2, append_cons, append_cons, append_nil.
    rewrite (split_app_sep ";" _ _ Hplain).
    rewrite split_cons_other by reflexivity.
    cbn [map] in IH. rewrite (IH Hrest). reflexivity.
Qed.

Section Reading.

Variable trim : string -> string.
Variable encode : string -> string.
Variable decode : string -> Outcome string.
Hypothesis laws : PlatformLaws trim encode decode.

Variable name : string.
Hypothesis name_token : token name = true.

Lemma matches_pair (n v : string) :
  token n = true -> octets v = true ->
  startsWith (trim (pair_text (n, v))) (name +:+ "=") = String.eqb n name
  /\ startsWith (trim (String " " (pair_text (n, v)))) (name +:+ "=")
     = String.eqb n name.
Proof.
  intros Hn Hv. unfold startsWith.
  rewrite (trim_space _ _ _ laws).
  rewrite (trim_octets _ _ _ laws _ (pair_text_octets n v Hn Hv)).
  rewrite (pair_text_prefix name n v name_token Hn). auto.
Qed.

Lemma find_spaced (cookies : list (string * string)) :
  wellFormed cookies ->
  option_map (fun c => nth 1 (split "=" c) "undefined"%string)
    (List.find
       (fun c : string => startsWith (trim c) (name +:+ "="))
       (map (fun y => String " " (pair_text y)) cookies)) =
  option_map (fun v => hd EmptyString (split "=" v)) (jar_lookup name cookies).
Proof.
  induction cookies as [|[n v] rest IH]; [reflexivity|].
  intros (Hn & Hv & _ & Hrest). cbn [map List.find jar_lookup].
  destruct (matches_pair n v Hn Hv) as [_ ->].
  destruct (String.eqb n name); [|apply IH; exact Hrest].
  cbn [option_map]. rewrite (spaced_value n v Hn). reflexivity.
Qed.

Lemma read_cookie (b : Browser) :
  wellFormed (jar b) ->
  option_map (fun c => nth 1 (split "=" c) "undefined"%string)
    (List.find
       (fun c : string => startsWith (trim c) (name +:+ "="))
       (split ";" (document_cookie b))) =
  option_map (fun v => hd EmptyString (split "=" v)) (jar_lookup name (jar b)).
Proof.
  intros Hjar. unfold document_cookie. rewrite (cookie_pieces _ Hjar).
  destruct (jar b) as [|[n v] rest].
  - cbn [List.find jar_lookup option_map]. unfold startsWith.
    rewrite (trim_octets _ _ _ laws EmptyString eq_refl).
    destruct name; reflexivity.
  - destruct Hjar as (Hn & Hv & _ & Hrest). cbn [List.find jar_lookup].
    destruct (matches_pair n v Hn Hv) as [-> _].
    destruct (String.eqb n name); [|apply find_spaced; exact Hrest].
    cbn [option_map]. rewrite (pair_text_value n v Hn). reflexivity.
Qed.

End Reading.

(** *** The jar *)

Lemma jar_lookup_store (name value : string) (cookies : list (string * string)) :
  jar_lookup name (jar_store name value cookies) = Some value.
Proof.
  induction cookies as [|[n v] rest IH]; simpl.
  - rewrite String.eqb_refl. reflexivity.
  - destruct (String.eqb n name) eqn:E; simpl.
    + rewrite String.eqb_refl. reflexivity.
    + rewrite E. exact IH.
Qed.

Lemma jar_lookup_store_other (name value other : string)
      (cookies : list (string * string)) :
  other <> name ->
  jar_lookup other (jar_store name value cookies) = jar_lookup other cookies.
Proof.
  intros Hne. induction cookies as [|[n v] rest IH]; simpl.
  - apply String.eqb_neq in Hne. rewrite String.eqb_sym, Hne. reflexivity.
  - destruct (String.eqb n name) eqn:E; simpl.
    + apply String.eqb_eq in E. subst n.
      assert (String.eqb name other = false) as ->
          by (apply String.eqb_neq; congruence).
      reflexivity.
    + destruct (String.eqb n other); [reflexivity | exact IH].
Qed.

Lemma wellFormed_store (name value : string) (cookies : list (string * string)) :
  token name = true -> octets value = true ->
  wellFormed cookies -> wellFormed (jar_store name value cookies).
Proof.
  intros Hname Hvalue. induction cookies as [|[n v] rest IH]; simpl.
  - auto.
  - intros (Hn & Hv & Hfresh & Hrest).
    destruct (String.eqb n name) eqn:E; simpl.
    + apply String.eqb_eq in E. subst n. auto.
    + repeat split; auto.
      rewrite jar_lookup_store_other; [exact Hfresh|].
      apply String.eqb_neq. exact E.
Qed.

Lemma jar_lookup_expire (name : string) (cookies : list (string * string)) :
  jar_lookup name (jar_expire name cookies) = None.
Proof.
  induction cookies as [|[n v] rest IH]; simpl; [reflexivity|].
  destruct (String.eqb n name) eqn:E; simpl; [exact IH|].
  rewrite E. exact IH.
Qed.

Lemma jar_lookup_expire_none (name other : string)
      (cookies : list (string * string)) :
  jar_lookup other cookies = None ->
  jar_lookup other (jar_expire name cookies) = None.
Proof.
  induction cookies as [|[n v] rest IH]; simpl; [reflexivity|].
  destruct (String.eqb n other) eqn:E; [discriminate|].
  intros H. destruct (String.eqb n name); simpl; [auto|].
  rewrite E. auto.
Qed.

Lemma wellFormed_expire (name : string) (cookies : list (string * string)) :
  wellFormed cookies -> wellFormed (jar_expire name cookies).
Proof.
  induction cookies as [|[n v] rest IH]; simpl; [auto|].
  intros (Hn & Hv & Hfresh & Hrest).
  destruct (String.eqb n name); simpl; [auto|].
  repeat split; auto. apply jar_lookup_expire_none. exact Hfresh.
Qed.

Lemma cookieNameOf_token (key : string) : token (cookieNameOf key) = true.
Proof. unfold cookieNameOf. destruct (includes key "access"); reflexivity. Qed.

Lemma token_value (v : string) :
  token v = true -> hd EmptyString (split "=" v) = v.
Proof.
  intros H. rewrite (split_none "=" v (token_no_equals v H)). reflexivity.
Qed.

(** *** A platform for the examples *)

Lemma trim_end_octets (s : string) : octets s = true -> trim_end s = s.
Proof.
  induction s as [|c s IH]; [reflexivity|].
  unfold octets. cbn [all_chars]. intros H.
  apply andb_true_iff in H as [Hc Hs]. cbn [trim_end]. rewrite (IH Hs).
  destruct s; [|reflexivity].
  assert (blank c = false) as ->; [|reflexivity].
  unfold cookie_octet in Hc. unfold blank.
  apply andb_true_iff in Hc as [Hc _]. apply andb_true_iff in Hc as [Hc _].
  apply Nat.ltb_lt in Hc. apply Nat.leb_gt. exact Hc.
Qed.

Lemma trim_start_octets (s : string) : octets s = true -> trim_start s = s.
Proof.
  destruct s as [|c s]; [reflexivity|].
  unfold octets. cbn [all_chars]. intros H.
  apply andb_true_iff in H as [Hc _]. cbn [trim_start].
  assert (blank c = false) as ->; [|reflexivity].
  unfold cookie_octet in Hc. unfold blank.
  apply andb_true_iff in Hc as [Hc _]. apply andb_true_iff in Hc as [Hc _].
  apply Nat.ltb_lt in Hc. apply Nat.leb_gt. exact Hc.
Qed.

Lemma hex_codec (v : string) :
  token (hex_encode v) = true /\ hex_decode (hex_encode v) = Returns v.
Proof.
  induction v as [|c v [IHt IHd]]; [split; reflexivity|].
  cbn [hex_encode hex_decode]. unfold token in *. cbn [all_chars].
  rewrite IHt, IHd.
  destruct c as [[] [] [] [] [] [] [] []]; split; reflexivity.
Qed.

Lemma example_platform : PlatformLaws ascii_trim hex_encode hex_decode.
Proof.
  constructor.
  - reflexivity.
  - intros s Hs. unfold ascii_trim.
    rewrite (trim_start_octets s Hs). apply trim_end_octets. exact Hs.
  - apply hex_codec.
  - apply hex_codec.
Qed.

(** *** Reading, writing and removing a token *)

Section Store.

Variable trim : string -> string.
Variable encode : string -> string.
Variable decode : string -> Outcome string.
Variable production : bool.
Hypothesis laws : PlatformLaws trim encode decode.

Lemma getItem_miss (key : string) (b : Browser) :
  window_defined b = true ->
  wellFormed (jar b) ->
  truthy_opt (match localStorage b with
              | Some entries => entries !! key
              | None => None
              end) = false ->
  fst (getItem trim decode key b) =
  if includes key "auth-token" then
    match jar_lookup (cookieNameOf key) (jar b) with
    | Some v =>
        match decode (hd EmptyString (split "=" v)) with
        | Returns x => Returns (Some x)
        | Throws m => Throws m
        end
    | None => Returns None
    end
  else Returns None.
Proof.
  intros Hwindow Hjar. unfold getItem. rewrite Hwindow. cbn [negb].
  destruct (localStorage b) as [entries|] eqn:Hls; intros Hmiss;
    cbv beta iota zeta; [rewrite Hmiss|cbn [truthy_opt]].
  all: pose proof (read_cookie trim encode decode laws (cookieNameOf key)
                (cookieNameOf_token key) b Hjar) as Hread.
  all: destruct (includes key "auth-token"); try reflexivity.
  - destruct (List.find _ (split ";" (document_cookie b))) as [c|];
      destruct (jar_lookup (cookieNameOf key) (jar b)) as [v|];
      try discriminate; [|reflexivity].
    injection Hread as ->. destruct (decode _); reflexivity.
  - change (document_cookie (warn "Failed to access localStorage:" b))
      with (document_cookie b).
    destruct (List.find _ (split ";" (document_cookie b))) as [c|];
      destruct (jar_lookup (cookieNameOf key) (jar b)) as [v|];
      try discriminate; [|reflexivity].
    injection Hread as ->. destruct (decode _); reflexivity.
Qed.

Lemma setItem_fields (key value : string) (b : Browser) :
  window_defined b = true ->
  let b' := setItem encode production key value b in
  window_defined b' = true
  /\ localStorage b' = (fun entries => <[key := value]> entries) <$> localStorage b
  /\ jar b' = if includes key "auth-token"
              then jar_store (cookieNameOf key) (encode value) (jar b)
              else jar b.
Proof.
  intros Hwindow. unfold setItem. rewrite Hwindow. cbn [negb].
  destruct (localStorage b) eqn:Hls; destruct (includes key "auth-token");
    cbn; rewrite ?Hls; auto.
Qed.

Lemma removeItem_fields (key : string) (b : Browser) :
  window_defined b = true ->
  let b' := removeItem key b in
  window_defined b' = true
  /\ localStorage b' = (fun entries => delete key entries) <$> localStorage b
  /\ jar b' = if includes key "auth-token"
              then jar_expire (cookieNameOf key) (jar b)
              else jar b.
Proof.
  intros Hwindow. unfold removeItem. rewrite Hwindow. cbn [negb].
  destruct (localStorage b) eqn:Hls; destruct (includes key "auth-token");
    cbn; rewrite ?Hls; auto.
Qed.

Lemma getItem_hit (key item : string) (b : Browser)
      (entries : gmap string string) :
  window_defined b = true ->
  localStorage b = Some entries ->
  entries !! key = Some item ->
  truthy item = true ->
  fst (getItem trim decode key b) = Returns (Some item).
Proof.
  intros Hwindow Hls Hitem Htruthy. unfold getItem.
  rewrite Hwindow, Hls. cbv beta iota zeta. rewrite Hitem.
  cbn [negb truthy_opt]. rewrite Htruthy. reflexivity.
Qed.

(** A value stored under a key that contains [auth-token] is read back
    under that key, also when [localStorage] cannot be used and also when
    the value is empty: the cookie carries it.  Under any other key the
    value is read back exactly when [localStorage] can be used and the
    value is not empty. *)
Theorem stored_value_is_read_back (key value : string) (b : Browser) :
  window_defined b = true ->
  wellFormed (jar b) ->
  fst (getItem trim decode key (setItem encode production key value b)) =
  if includes key "auth-token" then Returns (Some value)
  else match localStorage b with
       | Some _ => Returns (if truthy value then Some value else None)
       | None => Returns None
       end.
Proof.
  intros Hwindow Hjar.
  destruct (setItem_fields key value b Hwindow) as (Hw & Hls & Hj).
  set (b' := setItem encode production key value b) in *.
  assert (Hjar' : wellFormed (jar b')).
  { rewrite Hj. destruct (includes key "auth-token"); [|exact Hjar].
    apply wellFormed_store;
      [apply cookieNameOf_token
      | apply token_octets, (encode_token _ _ _ laws)
      | exact Hjar]. }
  assert (Hcookie : includes key "auth-token" = true ->
            match jar_lookup (cookieNameOf key) (jar b') with
            | Some v =>
                match decode (hd EmptyString (split "=" v)) with
                | Returns x => Returns (Some x)
                | Throws m => Throws m
                end
            | None => Returns None
            end = Returns (Some value)).
  { intros Hauth. rewrite Hj, Hauth, jar_lookup_store.
    rewrite (token_value _ (encode_token _ _ _ laws value)).
    rewrite (decode_encode _ _ _ laws). reflexivity. }
  destruct (localStorage b) as [entries|] eqn:Hb; cbn [fmap option_fmap option_map] in Hls.
  - destruct (truthy value) eqn:Htruthy.
    + rewrite (getItem_hit key value b' _ Hw Hls (lookup_insert_eq _ _ _)
                 Htruthy).
      destruct (includes key "auth-token"); reflexivity.
    + rewrite (getItem_miss key b' Hw Hjar').
      * destruct (includes key "auth-token"); [auto | reflexivity].
      * rewrite Hls, lookup_insert_eq. exact Htruthy.
  - rewrite (getItem_miss key b' Hw Hjar').
    + destruct (includes key "auth-token"); [auto | reflexivity].
    + rewrite Hls. reflexivity.
Qed.

(** After [removeItem], [getItem] of the same key returns null: neither
    [localStorage] nor the cookie holds a value for it. *)
Theorem removed_value_is_gone (key : string) (b : Browser) :
  wellFormed (jar b) ->
  fst (getItem trim decode key (removeItem key b)) = Returns None.
Proof.
  intros Hjar.
  destruct (window_defined b) eqn:Hwindow.
  - destruct (removeItem_fields key b Hwindow) as (Hw & Hls & Hj).
    set (b' := removeItem key b) in *.
    assert (Hjar' : wellFormed (jar b')).
    { rewrite Hj. destruct (includes key "auth-token"); [|exact Hjar].
      apply wellFormed_expire. exact Hjar. }
    rewrite (getItem_miss key b' Hw Hjar').
    + rewrite Hj. destruct (includes key "auth-token"); [|reflexivity].
      rewrite jar_lookup_expire. reflexivity.
    + rewrite Hls. destruct (localStorage b) as [entries|]; [|reflexivity].
      cbn. rewrite lookup_delete_eq. reflexivity.
  - unfold getItem, removeItem. rewrite Hwindow. cbn [negb].
    rewrite Hwindow. reflexivity.
Qed.

(** When [localStorage] gives nothing for a key that contains
    [auth-token], [getItem] decodes the value of the token cookie up to
    its first equals sign: a value without equals sign is decoded whole, a
    value that contains one is cut there; without such a cookie the
    result is null. *)
Theorem cookie_read_up_to_equals (key : string) (b : Browser) :
  window_defined b = true ->
  wellFormed (jar b) ->
  includes key "auth-token" = true ->
  truthy_opt (match localStorage b with
              | Some entries => entries !! key
              | None => None
              end) = false ->
  match jar_lookup (cookieNameOf key) (jar b) with
  | Some v =>
      fst (getItem trim decode key b) =
        match decode (split_head "=" v) with
        | Returns x => Returns (Some x)
        | Throws m => Throws m
        end
      /\ (token v = true -> split_head "=" v = v)
  | None => fst (getItem trim decode key b) = Returns None
  end.
Proof.
  intros Hwindow Hjar Hauth Hmiss.
  rewrite (getItem_miss key b Hwindow Hjar Hmiss), Hauth.
  assert (Hhead : forall v, hd EmptyString (split "=" v) = split_head "=" v).
  { induction v as [|c v IH]; [reflexivity|]. cbn [split split_head].
    destruct (Ascii.eqb c "="); [reflexivity|].
    destruct (split_pieces "=" v) as (piece & pieces & E).
    rewrite E in *. cbn [hd] in *. rewrite IH. reflexivity. }
  destruct (jar_lookup (cookieNameOf key) (jar b)) as [v|]; [|reflexivity].
  rewrite Hhead. split; [reflexivity|].
  intros Hv. rewrite <- Hhead. apply token_value. exact Hv.
Qed.

End Store.

Lemma stored_value_is_read_back_witness :
  fst (getItem ascii_trim hex_decode "supabase.auth-token.refresh"
         (setItem hex_encode false "supabase.auth-token.refresh" "r-1; x=y"
            private_tab))
  = Returns (Some "r-1; x=y"%string).
Proof.
  rewrite (stored_value_is_read_back ascii_trim hex_encode hex_decode false
             example_platform "supabase.auth-token.refresh" "r-1; x=y"
             private_tab); [reflexivity | reflexivity |].
  simpl. repeat split.
Defined.

Lemma removed_value_is_gone_witness :
  fst (getItem ascii_trim hex_decode "sb-auth-token-access"
         (removeItem "sb-auth-token-access" padded_tab)) = Returns None.
Proof.
  apply (removed_value_is_gone ascii_trim hex_encode hex_decode
           example_platform). simpl. repeat split.
Defined.

Lemma cookie_read_up_to_equals_witness :
  fst (getItem ascii_trim hex_decode "sb-auth-token-access" padded_tab)
  = Returns (Some "ab"%string).
Proof.
  assert (Hjar : wellFormed (jar padded_tab)) by (simpl; repeat split).
  pose proof (cookie_read_up_to_equals ascii_trim hex_encode hex_decode
                example_platform "sb-auth-token-access" padded_tab
                eq_refl Hjar eq_refl eq_refl) as H.
  assert (E : jar_lookup (cookieNameOf "sb-auth-token-access")
                (jar padded_tab) = Some "6162=zz"%string) by reflexivity.
  rewrite E in H. destruct H as [H _]. rewrite H. reflexivity.
Defined.

End TokenStoreFacts.
